(** * dotai: documentation crawler (app.py) and keyword chat bot (server.py)

    A shallow embedding of the crawl / extract / persist / search / respond
    pipeline, and the properties its specification states about it.

    Conventions.
    - A Python [str] is a [string]; its characters are the code points
      below 256, so [lower], [isspace] and friends are the Latin-1 fragment
      of the Unicode rules Python applies.
    - A Python [int] is a [Z].
    - A dictionary read with [d.get(key, default)] is a record of optional
      fields ([None]: the key is absent).
    - The set [visited_urls] is a [gset string].
    - A value of the JSON object of a chat request is a [Field]: a string,
      or a value of another kind, of which the handler sees no more than
      whether it is true in a condition and whether it can be hashed.
    - The network and the HTML parser are the environment: a function from
      the requests made so far and the requested URL to a response.
    - Logging and the pause between two requests change no state and are
      left out; the pause [delay] is a non-negative number of seconds. *)

From Stdlib Require Import ZArith List String Ascii Bool Lia Permutation Sorted.
From stdpp Require Import base decidable countable gmap strings.
Import ListNotations.

#[local] Open Scope string_scope.
#[local] Open Scope Z_scope.

(** * The program *)

(** ** Python built-ins used by the program *)
Module Py.

(** [len(s)] *)
Definition len (s : string) : Z := Z.of_nat (String.length s).

(** [str.lower], one character. *)
Definition lower_char (c : ascii) : ascii :=
  let n := N_of_ascii c in
  if ((65 <=? n) && (n <=? 90) ||
      (192 <=? n) && (n <=? 222) && negb (n =? 215))%N
  then ascii_of_N (n + 32) else c.

(** [s.lower()] *)
Fixpoint lower (s : string) : string :=
  match s with
  | EmptyString => EmptyString
  | String c s' => String (lower_char c) (lower s')
  end.

(** [c.isspace()] *)
Definition isspace (c : ascii) : bool :=
  let n := N_of_ascii c in
  ((9 <=? n) && (n <=? 13) || (28 <=? n) && (n <=? 32) ||
   (n =? 133) || (n =? 160))%N.

(** [s.split()]: the maximal runs of non-whitespace characters. *)
Fixpoint split (s : string) : list string :=
  match s with
  | EmptyString => []
  | String c s' =>
      if isspace c then split s'
      else match s' with
           | EmptyString => [String c EmptyString]
           | String c' _ =>
               if isspace c' then String c EmptyString :: split s'
               else match split s' with
                    | w :: ws => String c w :: ws
                    | [] => [String c EmptyString]
                    end
           end
  end.

(** [s.split(sep)] for a separator of one character. *)
Fixpoint split_on (sep : ascii) (s : string) : list string :=
  match s with
  | EmptyString => [EmptyString]
  | String c s' =>
      if Ascii.eqb c sep then EmptyString :: split_on sep s'
      else match split_on sep s' with
           | w :: ws => String c w :: ws
           | [] => [String c EmptyString]
           end
  end.

(** [l[0]] on the result of a split, which is never empty. *)
Definition first (l : list string) : string := hd EmptyString l.

(** [s.replace(old, new)] for [old] of one character. *)
Fixpoint replace (old : ascii) (new : string) (s : string) : string :=
  match s with
  | EmptyString => EmptyString
  | String c s' =>
      if Ascii.eqb c old then new ++ replace old new s'
      else String c (replace old new s')
  end.

Fixpoint lstrip (s : string) : string :=
  match s with
  | EmptyString => EmptyString
  | String c s' => if isspace c then lstrip s' else s
  end.

Fixpoint rstrip (s : string) : string :=
  match s with
  | EmptyString => EmptyString
  | String c s' =>
      match rstrip s' with
      | EmptyString => if isspace c then EmptyString else String c EmptyString
      | r => String c r
      end
  end.

(** [s.strip()] *)
Definition strip (s : string) : string := rstrip (lstrip s).

(** [sub in s] *)
Fixpoint contains (sub s : string) : bool :=
  String.prefix sub s ||
  match s with
  | EmptyString => false
  | String _ s' => contains sub s'
  end.

(** Scan of [s.count(sub)]: after a match the next [skip] characters
    belong to it and start no new match. *)
Fixpoint count_from (sub : string) (skip : nat) (s : string) : Z :=
  match s with
  | EmptyString => 0
  | String _ s' =>
      match skip with
      | S k => count_from sub k s'
      | O => if String.prefix sub s
             then 1 + count_from sub (String.length sub - 1) s'
             else count_from sub 0 s'
      end
  end.

(** [s.count(sub)]: the number of non-overlapping occurrences. *)
Definition count (s sub : string) : Z :=
  match sub with
  | EmptyString => len s + 1
  | _ => count_from sub 0 s
  end.

(** [sep.join(l)] *)
Definition join (sep : string) (l : list string) : string :=
  String.concat sep l.

(** [s[:n]] for a literal [n >= 0]. *)
Fixpoint prefix_to (n : nat) (s : string) : string :=
  match n, s with
  | S n', String c s' => String c (prefix_to n' s')
  | _, _ => EmptyString
  end.

(** [l[:stop]]: a negative [stop] counts from the end of the list. *)
Definition slice_to {A} (stop : Z) (l : list A) : list A :=
  if 0 <=? stop then firstn (Z.to_nat stop) l
  else firstn (List.length l - Z.to_nat (- stop)) l.

(** [d.get(key, default)] *)
Definition get {A} (field : option A) (default : A) : A :=
  match field with Some v => v | None => default end.

(** Insertion of [x] in front of a list sorted by decreasing key: behind
    the strictly greater keys, before the equal ones. *)
Fixpoint insert_desc {A} (key : A -> Z) (x : A) (l : list A) : list A :=
  match l with
  | [] => [x]
  | y :: l' => if key x <? key y then y :: insert_desc key x l' else x :: l
  end.

(** [l.sort(key=key, reverse=True)]: Python's sort is stable, and
    [reverse=True] keeps the original order of elements with equal keys. *)
Fixpoint sort_desc {A} (key : A -> Z) (l : list A) : list A :=
  match l with
  | [] => []
  | x :: l' => insert_desc key x (sort_desc key l')
  end.

End Py.

(** The results of [f] on the elements of a list, unless [f] fails on
    one. *)
Fixpoint traverse {A B} (f : A -> option B) (l : list A) : option (list B) :=
  match l with
  | [] => Some []
  | a :: l' =>
      match f a, traverse f l' with
      | Some b, Some bs => Some (b :: bs)
      | _, _ => None
      end
  end.

(** ** server.py: the corpus as loaded from JSON *)

(** One entry of [doc['headings']]. *)
Record Heading := mkHeading {
  level : option string;
  text : option string
}.

(** One page record, a JSON object. *)
Record Doc := mkDoc {
  url : option string;
  title : option string;
  content : option string;
  headings : option (list Heading);
  code_snippets : option (list string);
  links : option (list string)
}.

(** An element of [results]: [{'doc': doc, 'score': score}]. *)
Record Hit := mkHit { doc : Doc; score : Z }.

Module DocBot.

(** The body of the loop [for doc in self.docs_data] up to the test
    [score > 0]: the score of one record. *)
Definition score_doc (query_lower : string) (query_terms : list string)
    (d : Doc) : Z :=
  let score := 0 in
  let title := Py.lower (Py.get (title d) "") in
  let content := Py.lower (Py.get (content d) "") in
  let score :=
    fold_left (fun score term =>
                 if Py.contains term title then score + 15 else score)
              query_terms score in
  let score := if Py.contains query_lower title then score + 20 else score in
  let score := if Py.contains query_lower content then score + 10 else score in
  let score :=
    fold_left (fun score term =>
                 if 2 <? Py.len term then score + Py.count content term * 2
                 else score)
              query_terms score in
  let score :=
    fold_left (fun score heading =>
                 let heading_text := Py.lower (Py.get (text heading) "") in
                 let score :=
                   if Py.contains query_lower heading_text then score + 8
                   else score in
                 fold_left (fun score term =>
                              if Py.contains term heading_text then score + 3
                              else score)
                           query_terms score)
              (Py.get (headings d) []) score in
  score.

(** The list [results] after the loop over [self.docs_data]. *)
Definition scored (query_lower : string) (query_terms : list string)
    (docs_data : list Doc) : list Hit :=
  fold_left (fun results d =>
               let score := score_doc query_lower query_terms d in
               if 0 <? score then (results ++ [mkHit d score])%list else results)
            docs_data [].

(** The list [results] after sorting and slicing. *)
Definition ranked (docs_data : list Doc) (query : string) (max_results : Z)
    : list Hit :=
  let query_lower := Py.lower query in
  let query_terms := Py.split query_lower in
  let results := scored query_lower query_terms docs_data in
  let results := Py.sort_desc score results in
  Py.slice_to max_results results.

(** [DocBot.search_docs] *)
Definition search_docs (docs_data : list Doc) (query : string)
    (max_results : Z) : list Doc :=
  map doc (ranked docs_data query max_results).

(** The score [search_docs] gives a record for a query. *)
Definition score_of (query : string) (d : Doc) : Z :=
  score_doc (Py.lower query) (Py.split (Py.lower query)) d.

End DocBot.

(** The line feed character, Python's ['\n']. *)
Definition LF : ascii := "010"%char.
Definition NL : string := String LF EmptyString.

Module Composer.

Definition apology : string :=
  "I couldn't find specific information about that in the documentation. " ++
  "Please try rephrasing your question or ask about a different topic.".

Definition no_content : string :=
  "I found a relevant page but couldn't extract the content. " ++
  "Please check the source link below.".

Definition note : string :=
  NL ++ NL ++
  "For complete details, please refer to the documentation link below.".

(** [sentences] after the split and the comprehension that strips and
    keeps the sentences longer than 20 characters. *)
Definition sentences_of (content : string) : list string :=
  let sentences := Py.split_on "." (Py.replace LF ". " content) in
  map Py.strip
      (List.filter (fun s => 20 <? Py.len (Py.strip s)) sentences).

(** [any(term in sentence_lower for term in query_terms)] *)
Definition any_term (query_terms : list string) (sentence_lower : string)
    : bool :=
  existsb (fun term => Py.contains term sentence_lower) query_terms.

(** The loop [for sentence in sentences], which leaves at the third
    relevant sentence. *)
Fixpoint relevant_loop (query_terms : list string) (sentences : list string)
    (relevant_sentences : list string) : list string :=
  match sentences with
  | [] => relevant_sentences
  | sentence :: sentences' =>
      let sentence_lower := Py.lower sentence in
      if any_term query_terms sentence_lower then
        let relevant_sentences := (relevant_sentences ++ [sentence])%list in
        if 3 <=? Z.of_nat (List.length relevant_sentences)
        then relevant_sentences
        else relevant_loop query_terms sentences' relevant_sentences
      else relevant_loop query_terms sentences' relevant_sentences
  end.

(** [DocBot.generate_response] *)
Definition generate_response (query : string) (relevant_docs : list Doc)
    : string :=
  match relevant_docs with
  | [] => apology
  | top_doc :: _ =>
      let title := Py.get (title top_doc) "Documentation" in
      let content := Py.get (content top_doc) "" in
      if String.eqb content "" then no_content
      else
        let response := "Based on '" ++ title ++ "':" ++ NL ++ NL in
        let query_terms := Py.split (Py.lower query) in
        let sentences := sentences_of content in
        let relevant_sentences := relevant_loop query_terms sentences [] in
        let response :=
          match relevant_sentences with
          | _ :: _ => response ++ Py.join ". " relevant_sentences ++ "."
          | [] =>
              let meaningful_sentences :=
                firstn 4 (List.filter (fun s => 30 <? Py.len s) sentences) in
              match meaningful_sentences with
              | _ :: _ => response ++ Py.join ". " meaningful_sentences ++ "."
              | [] => response ++ Py.prefix_to 500 content ++ "..."
              end
          end in
        response ++ note
  end.

(** [DocBot.chat]: the response and the sources, as (title, url) pairs. *)
Definition chat (docs_data : list Doc) (message : string)
    : string * list (string * string) :=
  let relevant_docs := DocBot.search_docs docs_data message 3 in
  let response := generate_response message relevant_docs in
  (response,
   map (fun d => (Py.get (title d) "Untitled", Py.get (url d) "#"))
       relevant_docs).

End Composer.

(** ** app.py: the crawler *)

(** What the program reads of a tag found by [soup.find]: its text, and the
    headings and code elements below it, in document order. *)
Record Tag := mkTag {
  get_text : string;                 (* get_text(separator=' ', strip=True) *)
  find_all_h : list (string * string);   (* (name, get_text(strip=True)) *)
  find_all_code : list string            (* get_text(strip=True) *)
}.

(** What the program reads of a parsed page. *)
Record Soup := mkSoup {
  find_h1 : option string;           (* text of the first h1, if any *)
  find_title : option string;        (* text of the title tag, if any *)
  find_main : option Tag;
  find_article : option Tag;
  find_div_content : option Tag;
  find_all_a : list string           (* href of every anchor that has one *)
}.

(** The try block of [scrape_page] up to the parsed page: the request, the
    status check or the parser raise, or a page is parsed. *)
Inductive Response :=
| Raises
| Parsed (soup : Soup).

(** The scraper object. [requests] is the history of the calls of
    [session.get], oldest first, each with whether a page was parsed. *)
Record Scraper := mkScraper {
  visited_urls : gset string;
  scraped_data : list Doc;
  requests : list (string * bool)
}.

(** The value [scrape_page] returns: [False] or a list of links. *)
Inductive Scraped :=
| ret_False
| ret_list (links : list string).

(** Python's truth value of it. *)
Definition truthy (r : Scraped) : bool :=
  match r with
  | ret_False => false
  | ret_list [] => false
  | ret_list (_ :: _) => true
  end.

Definition links_of (r : Scraped) : list string :=
  match r with ret_False => [] | ret_list l => l end.

(** The local state of the loop of [scrape_documentation]. *)
Record Crawl := mkCrawl {
  scraper : Scraper;
  urls_to_visit : list string;
  pages_scraped : Z
}.

Module CapillaryDocScraper.
Section WithEnvironment.

Variable base_url : string.
(** [urllib.parse.urljoin]; [None] when it raises, as it does on an href it
    cannot split (ValueError). *)
Variable urljoin : string -> string -> option string.
(** The [netloc] of [urllib.parse.urlparse]. *)
Variable netloc : string -> string.
(** The response to a request, given the URLs requested before it. *)
Variable session_get : list string -> string -> Response.

(** [__init__] *)
Definition init : Scraper := mkScraper ∅ [] [].

Definition is_valid_url (url : string) : bool :=
  String.eqb (netloc url) (netloc base_url).

Definition extract_content (soup : Soup) (url : string) : Doc :=
  let title :=
    match find_h1 soup with
    | Some t => t
    | None => match find_title soup with Some t => t | None => "" end
    end in
  let main_content :=
    match find_main soup with
    | Some m => Some m
    | None => match find_article soup with
              | Some a => Some a
              | None => find_div_content soup
              end
    end in
  match main_content with
  | Some m =>
      mkDoc (Some url) (Some title) (Some (get_text m))
            (Some (map (fun h => mkHeading (Some (fst h)) (Some (snd h)))
                       (find_all_h m)))
            (Some (List.filter (fun snippet => 10 <? Py.len snippet)
                               (find_all_code m)))
            (Some [])
  | None =>
      mkDoc (Some url) (Some title) (Some "") (Some []) (Some []) (Some [])
  end.

(** The normalisation in [get_links]:
    [absolute_url.split('#')[0].split('?')[0]]. *)
Definition clean (absolute_url : string) : string :=
  Py.first (Py.split_on "?" (Py.first (Py.split_on "#" absolute_url))).

(** [get_links]; [None] when [urljoin] raises on an href. *)
Definition get_links (self : Scraper) (soup : Soup) (current_url : string)
    : option (list string) :=
  fold_left (fun links href =>
               match links with
               | None => None
               | Some links =>
                   match urljoin current_url href with
                   | None => None
                   | Some absolute_url =>
                       let clean_url := clean absolute_url in
                       if is_valid_url clean_url
                          && bool_decide (clean_url ∉ visited_urls self)
                       then Some (links ++ [clean_url])%list
                       else Some links
                   end
               end)
            (find_all_a soup) (Some []).

(** [scrape_page]: the try block ends in [return []] when the request, the
    status check, the parser or [get_links] raises. *)
Definition scrape_page (self : Scraper) (url : string) : Scraped * Scraper :=
  if bool_decide (url ∈ visited_urls self) then (ret_False, self)
  else
    match session_get (map fst (requests self)) url with
    | Raises =>
        (ret_list [],
         mkScraper (visited_urls self) (scraped_data self)
                   (requests self ++ [(url, false)])%list)
    | Parsed soup =>
        let record := extract_content soup url in
        let scraped_data :=
          if negb (String.eqb (Py.get (content record) "") "")
          then (scraped_data self ++ [record])%list
          else scraped_data self in
        let self :=
          mkScraper ({[url]} ∪ visited_urls self) scraped_data
                    (requests self ++ [(url, true)])%list in
        match get_links self soup url with
        | Some links => (ret_list links, self)
        | None => (ret_list [], self)
        end
    end.

(** The loop test [urls_to_visit and pages_scraped < max_pages]. *)
Definition loop_test (max_pages : Z) (c : Crawl) : bool :=
  match urls_to_visit c with
  | [] => false
  | _ :: _ => pages_scraped c <? max_pages
  end.

(** One iteration of the loop of [scrape_documentation]. *)
Definition loop_body (c : Crawl) : Crawl :=
  match urls_to_visit c with
  | [] => c
  | current_url :: urls_to_visit =>
      if bool_decide (current_url ∈ visited_urls (scraper c))
      then mkCrawl (scraper c) urls_to_visit (pages_scraped c)
      else
        let '(new_links, self) := scrape_page (scraper c) current_url in
        let urls_to_visit :=
          if truthy new_links
          then (urls_to_visit ++ links_of new_links)%list
          else urls_to_visit in
        mkCrawl self urls_to_visit (pages_scraped c + 1)
  end.

(** The loop, run for at most [fuel] iterations. *)
Fixpoint loop (fuel : nat) (max_pages : Z) (c : Crawl) : option Crawl :=
  if loop_test max_pages c then
    match fuel with
    | O => None
    | S fuel' => loop fuel' max_pages (loop_body c)
    end
  else Some c.

(** The state in which [scrape_documentation] enters its loop. *)
Definition start (self : Scraper) : Crawl := mkCrawl self [base_url] 0.

(** [scrape_documentation]; the pause between two iterations is not
    modelled. *)
Definition scrape_documentation (fuel : nat) (self : Scraper)
    (max_pages : Z) : option Crawl :=
  loop fuel max_pages (start self).

End WithEnvironment.
End CapillaryDocScraper.

(** ** Python's json module, for the values a corpus is made of *)

#[local] Set Warnings "-register-all".

(** A Python value made of [str], [list] and [dict] with [str] keys; the
    members of a [dict] are in insertion order. *)
Inductive Value :=
| VStr (s : string)
| VList (items : list Value)
| VDict (members : list (string * Value)).

Module Json.

Definition QUOTE : ascii := "034"%char.
Definition BACKSLASH : ascii := "092"%char.

(** One lowercase hexadecimal digit. *)
Definition hex_digit (n : N) : ascii :=
  ascii_of_N (if (n <? 10)%N then 48 + n else 87 + n).

(** The value of a hexadecimal digit, of either case. *)
Definition hex_value (c : ascii) : option N :=
  let n := N_of_ascii c in
  if ((48 <=? n) && (n <=? 57))%N then Some (n - 48)%N
  else if ((97 <=? n) && (n <=? 102))%N then Some (n - 87)%N
  else if ((65 <=? n) && (n <=? 70))%N then Some (n - 55)%N
  else None.

(** [encode_basestring] on one character, written in front of [rest]:
    backslash escapes for the quote, the backslash and the control
    characters, any other character as it is ([ensure_ascii=False]). *)
Definition escape_char (c : ascii) (rest : string) : string :=
  let n := N_of_ascii c in
  if Ascii.eqb c QUOTE then String BACKSLASH (String QUOTE rest)
  else if Ascii.eqb c BACKSLASH then String BACKSLASH (String BACKSLASH rest)
  else if (n =? 8)%N then String BACKSLASH (String "b" rest)
  else if (n =? 12)%N then String BACKSLASH (String "f" rest)
  else if (n =? 10)%N then String BACKSLASH (String "n" rest)
  else if (n =? 13)%N then String BACKSLASH (String "r" rest)
  else if (n =? 9)%N then String BACKSLASH (String "t" rest)
  else if (n <? 32)%N then
    String BACKSLASH
      (String "u" (String "0" (String "0"
         (String (hex_digit (n / 16)) (String (hex_digit (n mod 16)) rest)))))
  else String c rest.

Fixpoint escape (s : string) (rest : string) : string :=
  match s with
  | EmptyString => rest
  | String c s' => escape_char c (escape s' rest)
  end.

(** A string between quotes. *)
Definition encode_string (s : string) (rest : string) : string :=
  String QUOTE (escape s (String QUOTE rest)).

Fixpoint spaces (n : nat) (rest : string) : string :=
  match n with
  | O => rest
  | S n' => String " " (spaces n' rest)
  end.

(** ['\n' + ' ' * (2 * level)] *)
Definition newline_indent (level : nat) (rest : string) : string :=
  String LF (spaces (2 * level) rest).

(** [json.dumps(v, indent=2, ensure_ascii=False)] at a nesting level,
    written in front of [rest]. *)
Fixpoint encode (level : nat) (v : Value) (rest : string) : string :=
  match v with
  | VStr s => encode_string s rest
  | VList [] => String "[" (String "]" rest)
  | VList (v0 :: items) =>
      String "["
        (newline_indent (S level)
           (encode (S level) v0
              ((fix more (items : list Value) (rest : string) : string :=
                  match items with
                  | [] => rest
                  | v :: items' =>
                      String ","
                        (newline_indent (S level)
                           (encode (S level) v (more items' rest)))
                  end) items
                 (newline_indent level (String "]" rest)))))
  | VDict [] => String "{" (String "}" rest)
  | VDict ((k0, v0) :: members) =>
      String "{"
        (newline_indent (S level)
           (encode_string k0
              (String ":" (String " "
                 (encode (S level) v0
                    ((fix more (members : list (string * Value))
                          (rest : string) : string :=
                        match members with
                        | [] => rest
                        | (k, v) :: members' =>
                            String ","
                              (newline_indent (S level)
                                 (encode_string k
                                    (String ":" (String " "
                                       (encode (S level) v
                                          (more members' rest))))))
                        end) members
                       (newline_indent level (String "}" rest))))))))
  end.

Definition dumps (v : Value) : string := encode 0 v EmptyString.

(** The decoder's WHITESPACE: space, tab, line feed, carriage return. *)
Definition is_ws (c : ascii) : bool :=
  let n := N_of_ascii c in
  ((n =? 32) || (n =? 9) || (n =? 10) || (n =? 13))%N.

Fixpoint skip_ws (s : string) : string :=
  match s with
  | EmptyString => EmptyString
  | String c s' => if is_ws c then skip_ws s' else s
  end.

(** The character a one-letter escape stands for. *)
Definition unescape (e : ascii) : option ascii :=
  if Ascii.eqb e QUOTE then Some QUOTE
  else if Ascii.eqb e BACKSLASH then Some BACKSLASH
  else if Ascii.eqb e "/" then Some "/"%char
  else if Ascii.eqb e "b" then Some "008"%char
  else if Ascii.eqb e "f" then Some "012"%char
  else if Ascii.eqb e "n" then Some "010"%char
  else if Ascii.eqb e "r" then Some "013"%char
  else if Ascii.eqb e "t" then Some "009"%char
  else None.

(** The code point of four hexadecimal digits. *)
Definition hex4 (h1 h2 h3 h4 : ascii) : option N :=
  match hex_value h1, hex_value h2, hex_value h3, hex_value h4 with
  | Some a, Some b, Some c, Some d => Some (((a * 16 + b) * 16 + c) * 16 + d)%N
  | _, _, _, _ => None
  end.

(** [scanstring] in strict mode, after the opening quote: the string and
    the text behind its closing quote. A code point from 256 on is outside
    the characters of the model. *)
Fixpoint scanstring (s : string) : option (string * string) :=
  match s with
  | EmptyString => None
  | String c s' =>
      if Ascii.eqb c QUOTE then Some (EmptyString, s')
      else if Ascii.eqb c BACKSLASH then
        match s' with
        | EmptyString => None
        | String e s'' =>
            if Ascii.eqb e "u" then
              match s'' with
              | String h1 (String h2 (String h3 (String h4 r))) =>
                  match hex4 h1 h2 h3 h4 with
                  | Some code =>
                      if (code <? 256)%N then
                        match scanstring r with
                        | Some (str, r') =>
                            Some (String (ascii_of_N code) str, r')
                        | None => None
                        end
                      else None
                  | None => None
                  end
              | _ => None
              end
            else
              match unescape e with
              | Some ch =>
                  match scanstring s'' with
                  | Some (str, r) => Some (String ch str, r)
                  | None => None
                  end
              | None => None
              end
        end
      else if (N_of_ascii c <? 32)%N then None
      else
        match scanstring s' with
        | Some (str, r) => Some (String c str, r)
        | None => None
        end
  end.

(** [d[k] = v] on the members of a dict. *)
Definition dict_set (k : string) (v : Value) (d : list (string * Value))
    : list (string * Value) :=
  if existsb (fun kv => String.eqb (fst kv) k) d
  then map (fun kv => if String.eqb (fst kv) k then (k, v) else kv) d
  else (d ++ [(k, v)])%list.

(** [dict(pairs)] *)
Definition dict_of (pairs : list (string * Value)) : list (string * Value) :=
  fold_left (fun d kv => dict_set (fst kv) (snd kv) d) pairs [].

(** [scan_once], [JSONArray] and [JSONObject] of the decoder; [fuel] bounds
    the nesting. [parse_array] starts at an item, [parse_object] behind
    the opening quote of a key. Numbers and the literals true, false and
    null are not values of the model. *)
Fixpoint parse (fuel : nat) (s : string) : option (Value * string) :=
  match fuel with
  | O => None
  | S fuel' =>
      match s with
      | EmptyString => None
      | String c s' =>
          if Ascii.eqb c QUOTE then
            match scanstring s' with
            | Some (str, r) => Some (VStr str, r)
            | None => None
            end
          else if Ascii.eqb c "[" then
            match skip_ws s' with
            | String "]" r => Some (VList [], r)
            | s'' =>
                match parse_array fuel' s'' with
                | Some (items, r) => Some (VList items, r)
                | None => None
                end
            end
          else if Ascii.eqb c "{" then
            match skip_ws s' with
            | String "}" r => Some (VDict [], r)
            | String q s'' =>
                if Ascii.eqb q QUOTE then
                  match parse_object fuel' s'' with
                  | Some (pairs, r) => Some (VDict (dict_of pairs), r)
                  | None => None
                  end
                else None
            | EmptyString => None
            end
          else None
      end
  end
with parse_array (fuel : nat) (s : string) : option (list Value * string) :=
  match fuel with
  | O => None
  | S fuel' =>
      match parse fuel' s with
      | Some (v, r) =>
          match skip_ws r with
          | String "]" r' => Some ([v], r')
          | String "," r' =>
              match parse_array fuel' (skip_ws r') with
              | Some (items, r'') => Some (v :: items, r'')
              | None => None
              end
          | _ => None
          end
      | None => None
      end
  end
with parse_object (fuel : nat) (s : string)
    : option (list (string * Value) * string) :=
  match fuel with
  | O => None
  | S fuel' =>
      match scanstring s with
      | Some (key, r) =>
          match skip_ws r with
          | String ":" r' =>
              match parse fuel' (skip_ws r') with
              | Some (v, r'') =>
                  match skip_ws r'' with
                  | String "}" r3 => Some ([(key, v)], r3)
                  | String "," r3 =>
                      match skip_ws r3 with
                      | String q r4 =>
                          if Ascii.eqb q QUOTE then
                            match parse_object fuel' r4 with
                            | Some (pairs, r5) => Some ((key, v) :: pairs, r5)
                            | None => None
                            end
                          else None
                      | EmptyString => None
                      end
                  | _ => None
                  end
              | None => None
              end
          | _ => None
          end
      | None => None
      end
  end.

(** [json.loads(s)]: one value, then only whitespace. *)
Definition loads (s : string) : option Value :=
  match parse (String.length s) (skip_ws s) with
  | Some (v, r) =>
      match skip_ws r with
      | EmptyString => Some v
      | _ => None
      end
  | None => None
  end.

End Json.

(** ** The corpus as a Python value, and as the file holds it *)
Module Corpus.

(** A key of a dict with its value, when the key is set. *)
Definition item {A} (key : string) (enc : A -> Value) (field : option A)
    : list (string * Value) :=
  match field with
  | Some x => [(key, enc x)]
  | None => []
  end.

Definition strings_value (l : list string) : Value := VList (map VStr l).

Definition heading_value (h : Heading) : Value :=
  VDict (item "level" VStr (level h) ++ item "text" VStr (text h))%list.

(** The dict of a page record, its keys in the order [extract_content]
    sets them. *)
Definition doc_value (d : Doc) : Value :=
  VDict (item "url" VStr (url d)
         ++ item "title" VStr (title d)
         ++ item "content" VStr (content d)
         ++ item "headings" (fun l => VList (map heading_value l)) (headings d)
         ++ item "code_snippets" strings_value (code_snippets d)
         ++ item "links" strings_value (links d))%list.

(** [self.scraped_data] as [json.dump] receives it. *)
Definition corpus_value (docs : list Doc) : Value :=
  VList (map doc_value docs).

(** [d.get(key)] on the members of a dict. *)
Fixpoint lookup (key : string) (members : list (string * Value))
    : option Value :=
  match members with
  | [] => None
  | (k, v) :: members' =>
      if String.eqb k key then Some v else lookup key members'
  end.

Definition as_str (v : Value) : option string :=
  match v with VStr s => Some s | _ => None end.

Definition as_list {A} (dec : Value -> option A) (v : Value)
    : option (list A) :=
  match v with VList items => traverse dec items | _ => None end.

(** The field of a record read from a dict: absent, or of the type the
    program expects; [None] for a value of another type, which the record
    cannot hold. *)
Definition field {A} (dec : Value -> option A) (key : string)
    (members : list (string * Value)) : option (option A) :=
  match lookup key members with
  | None => Some None
  | Some v =>
      match dec v with
      | Some x => Some (Some x)
      | None => None
      end
  end.

Definition as_heading (v : Value) : option Heading :=
  match v with
  | VDict m =>
      match field as_str "level" m, field as_str "text" m with
      | Some lv, Some tx => Some (mkHeading lv tx)
      | _, _ => None
      end
  | _ => None
  end.

Definition as_doc (v : Value) : option Doc :=
  match v with
  | VDict m =>
      match field as_str "url" m, field as_str "title" m,
            field as_str "content" m, field (as_list as_heading) "headings" m,
            field (as_list as_str) "code_snippets" m,
            field (as_list as_str) "links" m with
      | Some u, Some t, Some c, Some h, Some s, Some l =>
          Some (mkDoc u t c h s l)
      | _, _, _, _, _, _ => None
      end
  | _ => None
  end.

(** The loaded value as the list of records [DocBot] reads. *)
Definition as_corpus (v : Value) : option (list Doc) := as_list as_doc v.

End Corpus.

(** The files, by name, with their text. *)
Module Store.

(** [CapillaryDocScraper.save_to_json] *)
Definition save_to_json (files : gmap string string) (scraped_data : list Doc)
    (filename : string) : gmap string string :=
  <[filename := Json.dumps (Corpus.corpus_value scraped_data)]> files.

(** [DocBot.load_docs]: the new [docs_data]; [None] when [json.load]
    raises. *)
Definition load_docs (files : gmap string string) (docs_file : string)
    : option (list Doc) :=
  match files !! docs_file with
  | Some text =>
      match Json.loads text with
      | Some v => Corpus.as_corpus v
      | None => None
      end
  | None => Some []
  end.

End Store.

(** ** app.py run as a script, and the start of server.py *)
Module Script.
Section WithEnvironment.

Variable urljoin : string -> string -> option string.
Variable netloc : string -> string.
Variable session_get : list string -> string -> Response.

(** The default [base_url] of [CapillaryDocScraper]. *)
Definition base_url : string := "https://docs.capillarytech.com/".

(** The default file name of [save_to_json] and of [DocBot]. *)
Definition docs_file : string := "capillary_docs.json".

(** The [__main__] block of app.py: crawl at most 50 pages from a fresh
    scraper and save the records; the files afterwards. *)
Definition main (fuel : nat) (files : gmap string string)
    : option (gmap string string) :=
  match CapillaryDocScraper.scrape_documentation base_url urljoin netloc
          session_get fuel CapillaryDocScraper.init 50 with
  | Some c => Some (Store.save_to_json files (scraped_data (scraper c)) docs_file)
  | None => None
  end.

End WithEnvironment.

(** [bot = DocBot()]: the [docs_data] of the bot. *)
Definition bot (files : gmap string string) : option (list Doc) :=
  Store.load_docs files docs_file.

End Script.

(** ** server.py: the chat endpoint and its sessions *)

(** One entry of [sessions[id]['messages']]. *)
Record Exchange := mkExchange {
  user : string;
  assistant : string;
  timestamp : string
}.

(** One value of the global [sessions]. *)
Record Session := mkSession {
  created_at : string;
  messages : list Exchange
}.

(** A value the JSON object of a request holds under a key, as far as the
    handler can tell values apart: a string, or a value that is none, of
    which it sees whether it is true in a condition and, where it is looked
    up in [sessions], that a list or an object cannot be hashed. *)
Inductive Field :=
| J_null
| J_bool (b : bool)
| J_number (nonzero : bool)
| J_string (s : string)
| J_array (nonempty : bool)
| J_object (nonempty : bool).

(** [bool(v)], the value of [v] in a condition. *)
Definition bool_of (v : Field) : bool :=
  match v with
  | J_null => false
  | J_bool b => b
  | J_number nonzero => nonzero
  | J_string s => negb (String.eqb s "")
  | J_array nonempty => nonempty
  | J_object nonempty => nonempty
  end.

(** The JSON object of a request, as the handler reads it. *)
Record ChatRequest := mkChatRequest {
  message : option Field;
  session_id : option Field
}.

(** What the handler returns. *)
Inductive Reply :=
| Chat_200 (session_id : string) (response : string)
    (sources : list (string * string)) (timestamp : string)
| Error_400
| Error_500.

(** What one call of the handler takes from outside: the identifier
    [uuid.uuid4()] draws and the three readings of [datetime.now()]. *)
Record Outside := mkOutside {
  uuid4 : string;
  now_created : string;
  now_stored : string;
  now_replied : string
}.

Module Api.

(** [not session_id or session_id not in sessions]; [None] where the
    lookup raises: a list or an object is no key of a dictionary. The keys
    of [sessions] are strings, so no number and no boolean is among them. *)
Definition unknown (session_id : Field) (sessions : gmap string Session)
    : option bool :=
  if negb (bool_of session_id) then Some true
  else
    match session_id with
    | J_string id => Some (negb (bool_decide (is_Some (sessions !! id))))
    | J_array _ | J_object _ => None
    | J_null | J_bool _ | J_number _ => Some true
    end.

(** The key a known [session_id] is in [sessions]; only a string is
    known. *)
Definition key (session_id : Field) : string :=
  match session_id with
  | J_string id => id
  | _ => ""
  end.

(** The route [/api/chat]. [json] is [request.json], [None] when reading
    it or calling [get] on it raises. Every exception raised on the way
    ends in the reply 500, with [sessions] as they are by then:
    [bot.chat(message)] begins with [message.lower()], which only a string
    has. *)
Definition chat (docs_data : list Doc) (env : Outside)
    (sessions : gmap string Session) (json : option ChatRequest)
    : Reply * gmap string Session :=
  match json with
  | None => (Error_500, sessions)
  | Some data =>
      let message := Py.get (message data) (J_string "") in
      let session_id := Py.get (session_id data) J_null in
      if negb (bool_of message) then (Error_400, sessions)
      else
        match unknown session_id sessions with
        | None => (Error_500, sessions)
        | Some new =>
            let session_id := if new then uuid4 env else key session_id in
            let sessions :=
              if new
              then <[session_id := mkSession (now_created env) []]> sessions
              else sessions in
            match message with
            | J_string message =>
                let '(response, sources) := Composer.chat docs_data message in
                let sessions :=
                  alter (fun s =>
                           mkSession (created_at s)
                             (messages s
                              ++ [mkExchange message response
                                    (now_stored env)])%list)
                        session_id sessions in
                (Chat_200 session_id response sources (now_replied env),
                 sessions)
            | _ => (Error_500, sessions)
            end
        end
  end.

(** The route [/api/status]: [docs_loaded] and [docs_file_exists]. *)
Definition status (docs_data : list Doc) (files : gmap string string)
    (docs_file : string) : Z * bool :=
  (Z.of_nat (List.length docs_data),
   bool_decide (is_Some (files !! docs_file))).

End Api.

(** * The vocabulary of the specification *)

(** ** The scoring formula, in the words of the specification *)
Module Formula.

Definition b2z (b : bool) : Z := if b then 1 else 0.

Definition sum (l : list Z) : Z := fold_right Z.add 0 l.

(** How many of [terms] are substrings of [s]. *)
Definition matching (terms : list string) (s : string) : Z :=
  Z.of_nat (List.length (List.filter (fun t => Py.contains t s) terms)).

(** The additive score. [title_terms] says which query terms take part
    in the title bonus: the distinct ones in the specification's words. *)
Definition additive (title_terms : list string -> list string)
    (query : string) (d : Doc) : Z :=
  let q := Py.lower query in
  let terms := Py.split q in
  let title := Py.lower (Py.get (title d) "") in
  let content := Py.lower (Py.get (content d) "") in
  15 * matching (title_terms terms) title
  + 20 * b2z (Py.contains q title)
  + 10 * b2z (Py.contains q content)
  + 2 * sum (map (Py.count content)
                 (List.filter (fun t => 2 <? Py.len t) terms))
  + sum (map (fun h =>
                let heading_text := Py.lower (Py.get (text h) "") in
                8 * b2z (Py.contains q heading_text)
                + 3 * matching terms heading_text)
             (Py.get (headings d) [])).

(** +15 per distinct query term found in the title. *)
Definition spec_score : string -> Doc -> Z :=
  additive (nodup string_dec).

(** +15 per query term found in the title, a repeated term counting each
    time it is written. *)
Definition score_with_repeats : string -> Doc -> Z :=
  additive (fun terms => terms).

End Formula.

(** ** The ranking, on positions of the corpus *)

(** The score of the record at position [i] of the corpus. *)
Definition score_at (docs : list Doc) (query : string) (i : nat) : Z :=
  match nth_error docs i with
  | Some d => DocBot.score_of query d
  | None => 0
  end.

(** Position [i] is ranked before position [j]: a strictly higher score, or
    the same score and earlier in the corpus. *)
Definition ranks_before (docs : list Doc) (query : string) (i j : nat) : Prop :=
  score_at docs query j < score_at docs query i
  \/ (score_at docs query i = score_at docs query j /\ (i < j)%nat).

(** ** The response composer: the fallback chain in the words of the
    specification *)
Module Chain.

(** The candidate sentences: content split on periods, newlines first
    turned into ". ", trimmed, kept when longer than 20 characters. *)
Definition kept (content : string) : list string :=
  List.filter (fun s => 20 <? Py.len s)
    (map Py.strip (Py.split_on "." (Py.replace LF ". " content))).

(** A sentence contains a query term, case-insensitively. *)
Definition on_topic (query : string) (s : string) : bool :=
  existsb (fun term => Py.contains term (Py.lower s))
          (Py.split (Py.lower query)).

Definition long (s : string) : bool := 30 <? Py.len s.

Definition header (d : Doc) : string :=
  "Based on '" ++ Py.get (title d) "Documentation" ++ "':" ++ NL ++ NL.

Definition body (query content : string) : string :=
  match firstn 3 (List.filter (on_topic query) (kept content)) with
  | (_ :: _) as chosen => Py.join ". " chosen ++ "."
  | [] =>
      match firstn 4 (List.filter long (kept content)) with
      | (_ :: _) as chosen => Py.join ". " chosen ++ "."
      | [] => Py.prefix_to 500 content ++ "..."
      end
  end.

End Chain.

(** ** The link extractor: normalisation in the words of the
    specification *)
Module Normal.

(** Strip everything from the first [c] on. *)
Fixpoint strip_from (c : ascii) (s : string) : string :=
  match s with
  | EmptyString => EmptyString
  | String a s' =>
      if Ascii.eqb a c then EmptyString else String a (strip_from c s')
  end.

(** First the fragment, then the query. *)
Definition normalize (s : string) : string :=
  strip_from "?" (strip_from "#" s).

End Normal.

(** ** The crawl: requests and records *)

(** All the URLs requested, oldest first. *)
Definition requested (s : Scraper) : list string := map fst (requests s).

(** The admission criterion of a record. *)
Definition has_content (d : Doc) : Prop := Py.get (content d) "" <> "".

(** In a history of requests, no URL is requested again after a request
    of it gave a parsed page. *)
Fixpoint never_refetched (reqs : list (string * bool)) : Prop :=
  match reqs with
  | [] => True
  | (u, ok) :: later =>
      (ok = true -> ~ In u (map fst later)) /\ never_refetched later
  end.

(** What one crawl relies on: every page fetched with success is marked
    visited, and is not requested again. *)
Definition fetched_once (s : Scraper) : Prop :=
  never_refetched (requests s)
  /\ forall u, In (u, true) (requests s) -> u ∈ visited_urls s.

(** ** The values json writes *)

(** The keys of every dict are distinct, as in a Python dict. *)
Inductive Wf : Value -> Prop :=
| Wf_str (s : string) : Wf (VStr s)
| Wf_list (items : list Value) : Forall Wf items -> Wf (VList items)
| Wf_dict (members : list (string * Value)) :
    List.NoDup (map fst members) ->
    Forall (fun kv => Wf (snd kv)) members ->
    Wf (VDict members).

(** ** Sites to crawl *)
Module Site.

Definition base : string := "https://docs.x.com/".
Definition missing : string := "https://docs.x.com/missing".
Definition blank : string := "https://docs.x.com/blank".

(** Every href below is a full URL, which [urljoin] returns unchanged. *)
Definition urljoin (current_url href : string) : option string := Some href.

Fixpoint after_slashes (s : string) : string :=
  match s with
  | EmptyString => EmptyString
  | String "/" (String "/" r) => r
  | String _ s' => after_slashes s'
  end.

(** The network location of a URL of the form scheme://host/path. *)
Definition netloc (url : string) : string :=
  Normal.strip_from "/" (after_slashes url).

Definition page (text : string) (hrefs : list string) : Response :=
  Parsed (mkSoup (Some "Docs") None (Some (mkTag text [] [])) None None hrefs).

(** The home page links twice to a page that cannot be fetched. *)
Definition broken_link (history : list string) (url : string) : Response :=
  if String.eqb url base
  then page "Welcome to the documentation." [missing; missing]
  else Raises.

(** Every page links to a page not seen before. *)
Definition endless (history : list string) (url : string) : Response :=
  page "One more page of the documentation." [url ++ "a"].

(** The home page links to a page without a main content root. *)
Definition with_blank (history : list string) (url : string) : Response :=
  if String.eqb url base
  then page "Welcome to the documentation." [blank]
  else Parsed (mkSoup (Some "Blank") None None None None []).

Definition crawl (site : list string -> string -> Response)
    (max_pages : Z) : option Crawl :=
  CapillaryDocScraper.scrape_documentation base urljoin netloc site 100
    CapillaryDocScraper.init max_pages.

(** The crawl of [broken_link] after the home page. *)
Definition after_home : Crawl :=
  CapillaryDocScraper.loop_body base urljoin netloc broken_link
    (CapillaryDocScraper.start base CapillaryDocScraper.init).

End Site.

(** ** Pages to search *)

(** A query that writes a term twice, on a page whose title has the term. *)
Definition install_page : Doc :=
  mkDoc (Some "https://docs.x.com/install") (Some "Install")
        (Some "Steps to set up the tool.") (Some []) (Some []) (Some []).

(** A page about another subject than the query, with one long sentence. *)
Definition billing_page : Doc :=
  mkDoc (Some "https://docs.x.com/billing") (Some "Billing")
        (Some "Invoices are sent on the first day of every month. Short one.")
        (Some []) (Some []) (Some []).

(** * Proofs *)

(** ** Properties of the search index *)
Section SearchFacts.

Lemma fold_left_add {A} (f : Z -> A -> Z) (g : A -> Z) (l : list A) :
  (forall acc a, f acc a = acc + g a) ->
  forall acc, fold_left f l acc = acc + Formula.sum (map g l).
Proof.
  intros Hf. induction l as [|a l IH]; intros acc; simpl.
  - lia.
  - rewrite IH, Hf. lia.
Qed.

Lemma fold_left_bonus {A} (p : A -> bool) (k : Z) (l : list A) (acc : Z) :
  fold_left (fun sc a => if p a then sc + k else sc) l acc
  = acc + k * Z.of_nat (List.length (List.filter p l)).
Proof.
  revert acc. induction l as [|a l IH]; intros acc; simpl.
  - lia.
  - rewrite IH. destruct (p a); simpl List.length; lia.
Qed.

Lemma sum_filter_map {A} (p : A -> bool) (g : A -> Z) (l : list A) :
  Formula.sum (map g (List.filter p l))
  = Formula.sum (map (fun a => if p a then g a else 0) l).
Proof.
  induction l as [|a l IH]; simpl; [reflexivity|].
  destruct (p a); simpl; rewrite IH; reflexivity.
Qed.

(** The accumulated score is the additive formula in which every written
    query term counts for the title. *)
Lemma score_doc_additive (query : string) (d : Doc) :
  DocBot.score_of query d = Formula.score_with_repeats query d.
Proof.
  unfold DocBot.score_of, DocBot.score_doc, Formula.score_with_repeats,
    Formula.additive, Formula.matching.
  set (q := Py.lower query). set (terms := Py.split q).
  set (ti := Py.lower (Py.get (title d) "")).
  set (co := Py.lower (Py.get (content d) "")).
  rewrite (fold_left_add _
    (fun h => 8 * Formula.b2z (Py.contains q (Py.lower (Py.get (text h) "")))
              + 3 * Z.of_nat (List.length (List.filter
                  (fun t => Py.contains t (Py.lower (Py.get (text h) "")))
                  terms)))).
  2:{ intros acc h. rewrite fold_left_bonus.
      destruct (Py.contains q _); simpl Formula.b2z; lia. }
  rewrite (fold_left_add _
    (fun t => if 2 <? Py.len t then Py.count co t * 2 else 0)).
  2:{ intros acc t. destruct (2 <? Py.len t); lia. }
  rewrite fold_left_bonus, sum_filter_map.
  assert (Hs : forall l : list string,
    Formula.sum (map (fun t => if 2 <? Py.len t then Py.count co t * 2 else 0) l)
    = 2 * Formula.sum (map (fun t => if 2 <? Py.len t then Py.count co t else 0) l)).
  { induction l as [|t l IH]; simpl; [reflexivity|].
    rewrite IH. destruct (2 <? Py.len t); lia. }
  rewrite Hs.
  destruct (Py.contains q ti), (Py.contains q co); simpl Formula.b2z; lia.
Qed.

Lemma scored_filter (ql : string) (terms : list string) (docs : list Doc) :
  DocBot.scored ql terms docs
  = map (fun d => mkHit d (DocBot.score_doc ql terms d))
        (List.filter (fun d => 0 <? DocBot.score_doc ql terms d) docs).
Proof.
  unfold DocBot.scored.
  enough (H : forall acc,
    fold_left (fun results d =>
                 let score := DocBot.score_doc ql terms d in
                 if 0 <? score then (results ++ [mkHit d score])%list
                 else results) docs acc
    = (acc ++ map (fun d => mkHit d (DocBot.score_doc ql terms d))
         (List.filter (fun d => 0 <? DocBot.score_doc ql terms d) docs))%list)
    by apply (H []).
  induction docs as [|d docs IH]; intros acc; simpl.
  - now rewrite app_nil_r.
  - rewrite IH. destruct (0 <? DocBot.score_doc ql terms d); simpl.
    + now rewrite <- app_assoc.
    + reflexivity.
Qed.

Lemma insert_desc_perm {A} (key : A -> Z) (x : A) (l : list A) :
  Permutation (x :: l) (Py.insert_desc key x l).
Proof.
  induction l as [|y l IH]; simpl; [reflexivity|].
  destruct (key x <? key y); [|reflexivity].
  rewrite perm_swap. now apply perm_skip.
Qed.

Lemma sort_desc_perm {A} (key : A -> Z) (l : list A) :
  Permutation l (Py.sort_desc key l).
Proof.
  induction l as [|x l IH]; simpl; [reflexivity|].
  rewrite <- insert_desc_perm. now apply perm_skip.
Qed.

Lemma firstn_incl {A} (n : nat) (l : list A) (x : A) :
  In x (firstn n l) -> In x l.
Proof.
  intros H. rewrite <- (firstn_skipn n l). apply in_or_app. now left.
Qed.

Lemma slice_to_incl {A} (stop : Z) (l : list A) (x : A) :
  In x (Py.slice_to stop l) -> In x l.
Proof.
  unfold Py.slice_to. destruct (0 <=? stop); apply firstn_incl.
Qed.

(** Every hit of the ranking comes from the corpus, with its score, which
    is positive. *)
Lemma ranked_hit (docs : list Doc) (query : string) (max_results : Z)
    (h : Hit) :
  In h (DocBot.ranked docs query max_results) ->
  In (doc h) docs /\ score h = DocBot.score_of query (doc h)
  /\ 0 < score h.
Proof.
  unfold DocBot.ranked. intros Hin.
  apply slice_to_incl in Hin.
  apply (Permutation_in _ (Permutation_sym (sort_desc_perm _ _))) in Hin.
  rewrite scored_filter in Hin.
  apply in_map_iff in Hin as [d [<- Hd]].
  apply filter_In in Hd as [Hd Hpos]. simpl.
  apply Z.ltb_lt in Hpos. auto.
Qed.

End SearchFacts.

(** ** Sorting and ranking *)
Section RankingFacts.

Context {A B : Type}.

Lemma insert_desc_map (key : A -> Z) (g : B -> A) (x : B) (l : list B) :
  Py.insert_desc key (g x) (map g l)
  = map g (Py.insert_desc (fun b => key (g b)) x l).
Proof.
  induction l as [|y l IH]; simpl; [reflexivity|].
  destruct (key (g x) <? key (g y)); simpl; [now rewrite IH | reflexivity].
Qed.

Lemma sort_desc_map (key : A -> Z) (g : B -> A) (l : list B) :
  Py.sort_desc key (map g l) = map g (Py.sort_desc (fun b => key (g b)) l).
Proof.
  induction l as [|x l IH]; simpl; [reflexivity|].
  now rewrite IH, insert_desc_map.
Qed.

Lemma slice_to_map (g : B -> A) (stop : Z) (l : list B) :
  Py.slice_to stop (map g l) = map g (Py.slice_to stop l).
Proof.
  unfold Py.slice_to. rewrite length_map.
  destruct (0 <=? stop); apply firstn_map.
Qed.

Lemma filter_map_comm (p : A -> bool) (g : B -> A) (l : list B) :
  List.filter p (map g l) = map g (List.filter (fun b => p (g b)) l).
Proof.
  induction l as [|x l IH]; simpl; [reflexivity|].
  destruct (p (g x)); simpl; now rewrite IH.
Qed.

End RankingFacts.

Section SortedFacts.

Variable key : nat -> Z.

(** Decreasing key, and increasing position among equal keys. *)
Definition before (i j : nat) : Prop :=
  key j < key i \/ (key i = key j /\ (i < j)%nat).

Lemma insert_desc_sorted (x : nat) (l : list nat) :
  StronglySorted before l ->
  Forall (fun y => (x < y)%nat) l ->
  StronglySorted before (Py.insert_desc key x l).
Proof.
  induction l as [|y l IH]; intros Hs Hx; simpl.
  - repeat constructor.
  - apply StronglySorted_inv in Hs as [Hs Hy].
    apply Forall_cons_iff in Hx as [Hxy Hx].
    destruct (key x <? key y) eqn:E.
    + apply Z.ltb_lt in E. constructor; [now apply IH|].
      apply (Permutation_Forall (insert_desc_perm key x l)).
      constructor; [now left | exact Hy].
    + apply Z.ltb_ge in E. constructor; [now constructor|].
      constructor.
      * unfold before. lia.
      * rewrite List.Forall_forall in *. intros z Hz.
        specialize (Hy z Hz). specialize (Hx z Hz).
        unfold before in *. lia.
Qed.

Lemma sort_desc_sorted (l : list nat) :
  StronglySorted lt l -> StronglySorted before (Py.sort_desc key l).
Proof.
  induction l as [|x l IH]; intros Hs; simpl; [constructor|].
  apply StronglySorted_inv in Hs as [Hs Hx].
  apply insert_desc_sorted; [now apply IH|].
  now apply (Permutation_Forall (sort_desc_perm key l)).
Qed.

End SortedFacts.

Section IndexFacts.

Lemma StronglySorted_filter {A} (R : A -> A -> Prop) (p : A -> bool) l :
  StronglySorted R l -> StronglySorted R (List.filter p l).
Proof.
  induction 1 as [|x l Hs IH Hx]; simpl; [constructor|].
  destruct (p x); [|exact IH].
  constructor; [exact IH|].
  rewrite List.Forall_forall in *. intros y Hy.
  apply filter_In in Hy as [Hy _]. now apply Hx.
Qed.

Lemma StronglySorted_firstn {A} (R : A -> A -> Prop) (n : nat) l :
  StronglySorted R l -> StronglySorted R (firstn n l).
Proof.
  intros Hs. revert n.
  induction Hs as [|x l Hs IH Hx]; intros [|n]; simpl; try constructor.
  - apply IH.
  - rewrite List.Forall_forall in *. intros y Hy. apply Hx.
    now apply firstn_incl in Hy.
Qed.

Lemma StronglySorted_on {A} (P : A -> Prop) (R R' : A -> A -> Prop) l :
  (forall a b, P a -> P b -> R a b -> R' a b) ->
  Forall P l -> StronglySorted R l -> StronglySorted R' l.
Proof.
  intros HR HP Hs.
  induction Hs as [|x l Hs IH Hx]; [constructor|].
  apply Forall_cons_iff in HP as [Px Pl].
  constructor; [now apply IH|].
  rewrite List.Forall_forall in *. intros y Hy.
  apply HR; auto.
Qed.

Lemma seq_sorted (s n : nat) : StronglySorted lt (seq s n).
Proof.
  revert s. induction n as [|n IH]; intros s; simpl; constructor.
  - apply IH.
  - apply List.Forall_forall. intros y Hy. apply in_seq in Hy. lia.
Qed.

Lemma map_nth_seq {A} (d0 : A) (l : list A) :
  map (fun i => nth i l d0) (seq 0 (List.length l)) = l.
Proof.
  induction l as [|x l IH]; simpl; [reflexivity|].
  f_equal. rewrite <- seq_shift, map_map. exact IH.
Qed.

End IndexFacts.

Section Positions.

Variable docs : list Doc.
Variable query : string.

(** The record read where a position holds none; never reached below. *)
Definition no_doc : Doc := mkDoc None None None None None None.

Definition at_pos (i : nat) : Doc := nth i docs no_doc.

(** The ranking of [search_docs], computed on positions. *)
Definition positions (max_results : Z) : list nat :=
  Py.slice_to max_results
    (Py.sort_desc (fun i => DocBot.score_of query (at_pos i))
       (List.filter (fun i => 0 <? DocBot.score_of query (at_pos i))
                    (seq 0 (List.length docs)))).

Lemma search_docs_rank (max_results : Z) :
  DocBot.search_docs docs query max_results
  = Py.slice_to max_results
      (Py.sort_desc (DocBot.score_of query)
         (List.filter (fun d => 0 <? DocBot.score_of query d) docs)).
Proof.
  unfold DocBot.search_docs, DocBot.ranked. rewrite scored_filter.
  rewrite (sort_desc_map score), <- slice_to_map, map_map. simpl.
  now rewrite map_id.
Qed.

Lemma search_docs_positions (max_results : Z) :
  DocBot.search_docs docs query max_results
  = map at_pos (positions max_results).
Proof.
  rewrite search_docs_rank. unfold positions.
  rewrite <- slice_to_map, <- (sort_desc_map (DocBot.score_of query) at_pos).
  rewrite <- (filter_map_comm (fun d => 0 <? DocBot.score_of query d) at_pos).
  unfold at_pos. now rewrite map_nth_seq.
Qed.

Lemma positions_in (max_results : Z) (i : nat) :
  In i (positions max_results) ->
  (i < List.length docs)%nat /\ 0 < DocBot.score_of query (at_pos i).
Proof.
  unfold positions. intros Hin. apply slice_to_incl in Hin.
  apply (Permutation_in _ (Permutation_sym (sort_desc_perm _ _))) in Hin.
  apply filter_In in Hin as [Hin Hpos].
  apply in_seq in Hin. apply Z.ltb_lt in Hpos. split; [lia | exact Hpos].
Qed.

Lemma score_at_pos (i : nat) :
  (i < List.length docs)%nat ->
  nth_error docs i = Some (at_pos i)
  /\ score_at docs query i = DocBot.score_of query (at_pos i).
Proof.
  intros Hi. unfold score_at, at_pos.
  rewrite (nth_error_nth' docs no_doc Hi). auto.
Qed.

Lemma positions_records (max_results : Z) :
  Forall2 (fun i d => nth_error docs i = Some d)
          (positions max_results)
          (DocBot.search_docs docs query max_results).
Proof.
  rewrite search_docs_positions.
  assert (H := positions_in max_results).
  induction (positions max_results) as [|i l IH]; simpl; constructor.
  - apply score_at_pos, H. now left.
  - apply IH. intros j Hj. apply H. now right.
Qed.

Lemma positions_sorted (max_results : Z) :
  StronglySorted (ranks_before docs query) (positions max_results).
Proof.
  apply (StronglySorted_on (fun i => (i < List.length docs)%nat)
           (before (fun i => DocBot.score_of query (at_pos i)))).
  - intros a b Ha Hb. unfold before, ranks_before.
    destruct (score_at_pos a Ha) as [_ ->].
    destruct (score_at_pos b Hb) as [_ ->]. auto.
  - apply List.Forall_forall. intros i Hi.
    now apply positions_in in Hi.
  - unfold positions, Py.slice_to.
    destruct (0 <=? max_results); apply StronglySorted_firstn;
      apply sort_desc_sorted, StronglySorted_filter, seq_sorted.
Qed.

Lemma positions_length (n : nat) :
  List.length (positions (Z.of_nat n))
  = Nat.min n (List.length
      (List.filter (fun d => 0 <? DocBot.score_of query d) docs)).
Proof.
  assert (Hl : List.length (positions (Z.of_nat n))
               = List.length (DocBot.search_docs docs query (Z.of_nat n))).
  { rewrite search_docs_positions. now rewrite length_map. }
  rewrite Hl, search_docs_rank. unfold Py.slice_to.
  destruct (0 <=? Z.of_nat n) eqn:E; [|apply Z.leb_gt in E; lia].
  rewrite length_firstn, Nat2Z.id.
  now rewrite <- (Permutation_length (sort_desc_perm _ _)).
Qed.

End Positions.

(** ** Claims about the search index *)

(** C1, as stated: the score is the formula that counts +15 per distinct
    query term found in the title. It is not: for the query
    "install install" the page titled "Install" scores 30, the formula 15. *)
Lemma search_score_distinct_terms_differs :
  DocBot.score_of "install install" install_page = 30
  /\ Formula.spec_score "install install" install_page = 15
  /\ DocBot.score_of "install install" install_page
     <> Formula.spec_score "install install" install_page.
Proof. vm_compute. repeat split; discriminate. Qed.

(** C1 (amended): for every query and record the score computed by
    search_docs is, case-insensitively and from 0: +15 per query term found
    in the title, a term written several times counting each time; +20 if
    the full query is in the title; +10 if it is in the content; +2 times
    the occurrence count in the content of each term longer than 2, summed
    over the terms; +8 per heading containing the full query; +3 per term
    per heading containing it. No record of score 0 is in a search result. *)
Theorem search_score_formula (query : string) (d : Doc)
    (docs : list Doc) (max_results : Z) :
  DocBot.score_of query d = Formula.score_with_repeats query d
  /\ Forall (fun r => DocBot.score_of query r <> 0)
            (DocBot.search_docs docs query max_results).
Proof.
  split; [apply score_doc_additive|].
  apply List.Forall_forall. intros r Hr.
  unfold DocBot.search_docs in Hr.
  apply in_map_iff in Hr as [h [<- Hh]].
  apply ranked_hit in Hh as (_ & Hs & Hpos). lia.
Qed.

(** Where no query term is written twice the two formulas agree. *)
Lemma search_score_spec_nodup (query : string) (d : Doc) :
  List.NoDup (Py.split (Py.lower query)) ->
  DocBot.score_of query d = Formula.spec_score query d.
Proof.
  intros Hnd. rewrite score_doc_additive.
  unfold Formula.spec_score, Formula.score_with_repeats, Formula.additive.
  now rewrite (nodup_fixed_point string_dec Hnd).
Qed.

(** C2: for every query, corpus and result count [n] (3 unless given),
    search_docs returns at most [n] records, by decreasing score, and
    records of equal score in the order of the corpus: the returned records
    sit at positions [idx] of the corpus, and along [idx] a position comes
    before another only with a higher score or with the same score and a
    smaller position. *)
Theorem search_docs_ranking (docs : list Doc) (query : string) (n : nat) :
  exists idx : list nat,
    Forall2 (fun i d => nth_error docs i = Some d)
            idx (DocBot.search_docs docs query (Z.of_nat n))
    /\ (List.length (DocBot.search_docs docs query (Z.of_nat n)) <= n)%nat
    /\ (List.length (DocBot.search_docs docs query 3) <= 3)%nat
    /\ StronglySorted (ranks_before docs query) idx.
Proof.
  exists (positions docs query (Z.of_nat n)).
  split; [apply positions_records|].
  assert (Hlen : forall k : nat,
    (List.length (DocBot.search_docs docs query (Z.of_nat k)) <= k)%nat).
  { intros k. rewrite search_docs_positions, length_map, positions_length.
    apply Nat.le_min_l. }
  split; [apply Hlen|]. split; [apply (Hlen 3%nat)|].
  apply positions_sorted.
Qed.

(** A negative [max_results] is not a count: Python slices from the end,
    and the search drops its last results. *)
Example search_docs_negative_max :
  DocBot.search_docs [install_page; install_page; install_page] "install" (-1)
  = [install_page; install_page].
Proof. vm_compute. reflexivity. Qed.

Section EmptyQuery.

Lemma contains_empty (s : string) : Py.contains "" s = true.
Proof. destruct s; reflexivity. Qed.

Lemma sum_const {A} (k : Z) (l : list A) :
  Formula.sum (map (fun _ => k) l) = k * Z.of_nat (List.length l).
Proof. induction l as [|a l IH]; simpl Formula.sum; simpl List.length; lia. Qed.

Lemma empty_query_score (d : Doc) :
  DocBot.score_of "" d
  = 30 + 8 * Z.of_nat (List.length (Py.get (headings d) [])).
Proof.
  rewrite score_doc_additive.
  unfold Formula.score_with_repeats, Formula.additive. simpl Py.lower.
  simpl Py.split. rewrite !contains_empty.
  rewrite (map_ext _ (fun _ : Heading => 8))
    by (intros h; rewrite contains_empty; reflexivity).
  rewrite sum_const. unfold Formula.matching. simpl. lia.
Qed.

Lemma filter_all {A} (p : A -> bool) (l : list A) :
  (forall a, p a = true) -> List.filter p l = l.
Proof.
  intros Hp. induction l as [|a l IH]; simpl; [reflexivity|].
  now rewrite Hp, IH.
Qed.

End EmptyQuery.

(** Where all records have the same number of headings the empty query
    returns the head of the corpus as it is. *)
Lemma empty_query_same_headings (docs : list Doc) (n : nat) (k : nat) :
  Forall (fun d => List.length (Py.get (headings d) []) = k) docs ->
  DocBot.search_docs docs "" (Z.of_nat n) = firstn n docs.
Proof.
  intros Hk. rewrite search_docs_rank. unfold Py.slice_to.
  destruct (0 <=? Z.of_nat n) eqn:E; [|apply Z.leb_gt in E; lia].
  rewrite Nat2Z.id. f_equal.
  rewrite filter_all.
  2:{ intros d. apply Z.ltb_lt. rewrite empty_query_score. lia. }
  induction Hk as [|d l Hd Hl IH]; simpl; [reflexivity|].
  rewrite IH. destruct l as [|d' l]; simpl; [reflexivity|].
  apply Forall_cons_iff in Hl as [Hd' _].
  rewrite !empty_query_score, Hd, Hd', Z.ltb_irrefl. reflexivity.
Qed.

(** The ranking of the whole corpus for the empty query holds every
    position of the corpus once. *)
Lemma empty_query_positions_all (docs : list Doc) :
  Permutation (positions docs "" (Z.of_nat (List.length docs)))
              (seq 0 (List.length docs)).
Proof.
  unfold positions, Py.slice_to.
  destruct (0 <=? Z.of_nat (List.length docs)) eqn:E;
    [|apply Z.leb_gt in E; lia].
  rewrite Nat2Z.id, filter_all.
  2:{ intros i. apply Z.ltb_lt. rewrite empty_query_score. lia. }
  rewrite firstn_all2.
  - apply Permutation_sym, sort_desc_perm.
  - rewrite <- (Permutation_length (sort_desc_perm _ _)), length_seq. lia.
Qed.

(** A result count cuts the ranking of the whole corpus, whatever the
    query. *)
Lemma positions_firstn (docs : list Doc) (query : string) (n : nat) :
  positions docs query (Z.of_nat n)
  = firstn n (positions docs query (Z.of_nat (List.length docs))).
Proof.
  unfold positions, Py.slice_to.
  destruct (0 <=? Z.of_nat n) eqn:E; [|apply Z.leb_gt in E; lia].
  destruct (0 <=? Z.of_nat (List.length docs)) eqn:E';
    [|apply Z.leb_gt in E'; lia].
  rewrite !Nat2Z.id. f_equal. symmetry. apply firstn_all2.
  rewrite <- (Permutation_length (sort_desc_perm _ _)).
  etransitivity; [apply filter_length_le|]. rewrite length_seq. lia.
Qed.

(** C10: for the empty query every record of the corpus scores at least 30
    (20 and 10 for the full query, found in every title and content, and 8
    per heading), none is excluded, and for a result count [n] the search
    returns the first min(n, corpus length) records of the ranking of the
    whole corpus: [ranking] lists every position of the corpus once, a
    position before another only with a higher score or with the same score
    and a smaller position, and the returned records are the ones at the
    first [n] positions of [ranking], in that order. Where all records have
    the same number of headings, so the same score, these are the first [n]
    records of the corpus as they stand. *)
Theorem empty_query_returns_all (docs : list Doc) (n : nat) :
  Forall (fun d =>
            DocBot.score_of "" d
            = 30 + 8 * Z.of_nat (List.length (Py.get (headings d) []))
            /\ 30 <= DocBot.score_of "" d) docs
  /\ List.length (DocBot.search_docs docs "" (Z.of_nat n))
     = Nat.min n (List.length docs)
  /\ (exists ranking : list nat,
        Permutation ranking (seq 0 (List.length docs))
        /\ StronglySorted (ranks_before docs "") ranking
        /\ Forall2 (fun i d => nth_error docs i = Some d)
                   (firstn n ranking)
                   (DocBot.search_docs docs "" (Z.of_nat n)))
  /\ (forall k : nat,
        Forall (fun d => List.length (Py.get (headings d) []) = k) docs ->
        DocBot.search_docs docs "" (Z.of_nat n) = firstn n docs).
Proof.
  split; [|split; [|split]].
  - apply List.Forall_forall. intros d _. rewrite empty_query_score. lia.
  - rewrite search_docs_positions, length_map, positions_length.
    rewrite filter_all; [reflexivity|].
    intros d. apply Z.ltb_lt. rewrite empty_query_score. lia.
  - exists (positions docs "" (Z.of_nat (List.length docs))).
    split; [apply empty_query_positions_all|].
    split; [apply positions_sorted|].
    rewrite <- positions_firstn. apply positions_records.
  - intros k. apply empty_query_same_headings.
Qed.

(** Three records of equal score and the result count 2: the first two
    records of the corpus are returned, in the order of the corpus. *)
Lemma empty_query_returns_all_witness :
  DocBot.search_docs [install_page; billing_page; install_page] "" 2
  = [install_page; billing_page].
Proof.
  apply (proj2 (proj2 (proj2
    (empty_query_returns_all [install_page; billing_page; install_page] 2)))
    (List.length (Py.get (headings install_page) []))).
  repeat constructor.
Defined.

(** ** Properties of the response composer *)
Section ComposerFacts.

Lemma sentences_of_kept (content : string) :
  Composer.sentences_of content = Chain.kept content.
Proof.
  unfold Composer.sentences_of, Chain.kept.
  now rewrite filter_map_comm.
Qed.

(** The loop that leaves at the third relevant sentence collects the
    first three sentences that pass the test. *)
Lemma relevant_loop_firstn (terms : list string) (l acc : list string) :
  (List.length acc < 3)%nat ->
  Composer.relevant_loop terms l acc
  = firstn 3 (acc ++ List.filter
                (fun s => Composer.any_term terms (Py.lower s)) l)%list.
Proof.
  revert acc. induction l as [|s l IH]; intros acc Hacc; simpl.
  - rewrite app_nil_r, firstn_all2; [reflexivity | lia].
  - destruct (Composer.any_term terms (Py.lower s)) eqn:E.
    + assert (Hlen : List.length (acc ++ [s])%list = S (List.length acc))
        by (rewrite length_app; simpl; lia).
      set (found := List.filter _ l).
      replace (acc ++ s :: found)%list with ((acc ++ [s]) ++ found)%list
        by (now rewrite <- app_assoc).
      subst found. set (acc' := (acc ++ [s])%list) in *.
      destruct (3 <=? Z.of_nat (List.length acc')) eqn:E3.
      * apply Z.leb_le in E3.
        rewrite firstn_app, (firstn_all2 acc') by lia.
        replace (3 - List.length acc')%nat with 0%nat by lia.
        now rewrite app_nil_r.
      * apply Z.leb_gt in E3. apply IH. lia.
    + now apply IH.
Qed.

Lemma response_shape (query : string) (top_doc : Doc) (others : list Doc) :
  Py.get (content top_doc) "" <> "" ->
  Composer.generate_response query (top_doc :: others)
  = (Chain.header top_doc
     ++ Chain.body query (Py.get (content top_doc) "")) ++ Composer.note.
Proof.
  intros Hne. unfold Composer.generate_response.
  apply String.eqb_neq in Hne. rewrite Hne.
  rewrite sentences_of_kept, relevant_loop_firstn by (simpl; lia).
  simpl app. unfold Chain.body, Chain.header.
  change (List.filter (fun s => Composer.any_term _ (Py.lower s)))
    with (List.filter (Chain.on_topic query)).
  destruct (firstn 3 (List.filter (Chain.on_topic query) _)); [|reflexivity].
  change (List.filter (fun s => 30 <? Py.len s))
    with (List.filter Chain.long).
  destruct (firstn 4 (List.filter Chain.long _)); reflexivity.
Qed.

Lemma filter_none {A} (p : A -> bool) (l : list A) :
  Forall (fun a => p a = false) l -> List.filter p l = [].
Proof.
  induction 1 as [|a l Ha _ IH]; simpl; [reflexivity|]. now rewrite Ha.
Qed.

Lemma firstn_filter_some {A} (p : A -> bool) (l : list A) (n : nat) :
  Exists (fun a => p a = true) l ->
  firstn (S n) (List.filter p l) <> [].
Proof.
  induction 1 as [a l Ha|a l _ IH]; simpl.
  - now rewrite Ha.
  - destruct (p a); [discriminate | exact IH].
Qed.

End ComposerFacts.

(** C8: for every query and top-ranked record with non-empty content the
    response is the header, the body chosen by the fallback chain, and the
    closing note. The chain works on the content split on periods (newlines
    first replaced by ". "), trimmed, sentences longer than 20 characters
    kept: up to 3 of them containing a query term as a case-insensitive
    substring; if none, up to 4 of them longer than 30 characters; if none
    either, the first 500 characters of the content and "...". A record
    with no sentence containing a query term but with one longer than 30
    characters gets the term-agnostic fallback, not the apology. *)
Theorem response_fallback_chain (query : string) (top_doc : Doc)
    (others : list Doc) :
  Py.get (content top_doc) "" <> "" ->
  let content := Py.get (content top_doc) "" in
  Composer.generate_response query (top_doc :: others)
  = (Chain.header top_doc ++ Chain.body query content) ++ Composer.note
  /\ (Forall (fun s => Chain.on_topic query s = false) (Chain.kept content) ->
      Exists (fun s => Chain.long s = true) (Chain.kept content) ->
      Composer.generate_response query (top_doc :: others)
      = (Chain.header top_doc
         ++ Py.join ". " (firstn 4 (List.filter Chain.long (Chain.kept content)))
         ++ ".") ++ Composer.note
      /\ Composer.generate_response query (top_doc :: others)
         <> Composer.apology).
Proof.
  intros Hne content0. split; [now apply response_shape|].
  intros Hnone Hlong.
  rewrite response_shape by exact Hne. fold content0.
  split.
  - unfold Chain.body. rewrite (filter_none _ _ Hnone). simpl firstn.
    pose proof (firstn_filter_some Chain.long _ 3 Hlong) as Hl.
    destruct (firstn 4 (List.filter Chain.long (Chain.kept content0)));
      [congruence | reflexivity].
  - unfold Chain.header, Composer.apology. simpl. discriminate.
Qed.

Lemma response_fallback_chain_witness :
  Composer.generate_response "zebra" [billing_page]
  = ("Based on 'Billing':" ++ NL ++ NL
     ++ "Invoices are sent on the first day of every month.")
    ++ Composer.note
  /\ Composer.generate_response "zebra" [billing_page] <> Composer.apology.
Proof.
  assert (Hne : Py.get (content billing_page) "" <> "")
    by (vm_compute; discriminate).
  destruct (response_fallback_chain "zebra" billing_page [] Hne) as [_ H].
  apply H.
  - vm_compute. repeat constructor.
  - vm_compute. repeat constructor.
Defined.

(** ** Properties of the link extractor *)
Section LinkFacts.

Variable base_url : string.
Variable urljoin : string -> string -> option string.
Variable netloc : string -> string.

Lemma first_split_on (c : ascii) (s : string) :
  Py.first (Py.split_on c s) = Normal.strip_from c s.
Proof.
  induction s as [|a s IH]; simpl; [reflexivity|].
  destruct (Ascii.eqb a c); [reflexivity|].
  destruct (Py.split_on c s); simpl in *; now rewrite <- IH.
Qed.

Lemma clean_normalize (s : string) :
  CapillaryDocScraper.clean s = Normal.normalize s.
Proof.
  unfold CapillaryDocScraper.clean, Normal.normalize.
  now rewrite !first_split_on.
Qed.

Lemma traverse_cons {X Y} (f : X -> option Y) (x : X) (l : list X) :
  traverse f (x :: l)
  = match f x with
    | Some y => option_map (cons y) (traverse f l)
    | None => None
    end.
Proof. simpl. destruct (f x), (traverse f l); reflexivity. Qed.

(** The loop of [get_links]: the kept links in the order of the anchors
    when every href resolves, a raise otherwise. *)
Lemma get_links_fold (keep : string -> bool) (current_url : string)
    (hrefs : list string) :
  forall acc : option (list string),
    fold_left (fun links href =>
                 match links with
                 | None => None
                 | Some links =>
                     match urljoin current_url href with
                     | None => None
                     | Some absolute_url =>
                         if keep (CapillaryDocScraper.clean absolute_url)
                         then Some (links
                                    ++ [CapillaryDocScraper.clean absolute_url])%list
                         else Some links
                     end
                 end) hrefs acc
    = match acc, traverse (urljoin current_url) hrefs with
      | Some links, Some resolved =>
          Some (links ++ List.filter keep
                           (map CapillaryDocScraper.clean resolved))%list
      | _, _ => None
      end.
Proof.
  induction hrefs as [|href hrefs IH]; intros acc.
  - destruct acc; simpl; [now rewrite app_nil_r | reflexivity].
  - cbn [fold_left]. rewrite IH, traverse_cons.
    destruct acc as [links|]; [|reflexivity].
    destruct (urljoin current_url href) as [absolute_url|]; [|reflexivity].
    destruct (traverse (urljoin current_url) hrefs) as [resolved|]; simpl;
      destruct (keep (CapillaryDocScraper.clean absolute_url));
      try reflexivity.
    now rewrite <- app_assoc.
Qed.

(** What [get_links] returns, with the code's own normalisation. *)
Lemma get_links_resolved (self : Scraper) (soup : Soup) (current_url : string) :
  CapillaryDocScraper.get_links base_url urljoin netloc self soup current_url
  = option_map
      (fun resolved =>
         List.filter
           (fun u => String.eqb (netloc u) (netloc base_url)
                     && bool_decide (u ∉ visited_urls self))
           (map CapillaryDocScraper.clean resolved))
      (traverse (urljoin current_url) (find_all_a soup)).
Proof.
  etransitivity.
  { exact (get_links_fold
             (fun u => String.eqb (netloc u) (netloc base_url)
                       && bool_decide (u ∉ visited_urls self))
             current_url (find_all_a soup) (Some [])). }
  now destruct (traverse (urljoin current_url) (find_all_a soup)).
Qed.

End LinkFacts.

(** C6: for every parsed page and current URL the link extractor returns,
    in document order, the anchors' hrefs resolved against the current URL
    and normalised by stripping everything from the first '#' and then from
    the first '?', keeping those whose network location is that of the base
    URL and which are not in the visited set (it raises when urljoin raises
    on an href); and "https://docs.x.com/a?x=1#frag" is normalised to
    "https://docs.x.com/a". *)
Theorem get_links_normalized (base_url : string)
    (urljoin : string -> string -> option string) (netloc : string -> string)
    (self : Scraper) (soup : Soup) (current_url : string) :
  CapillaryDocScraper.get_links base_url urljoin netloc self soup current_url
  = option_map
      (fun resolved =>
         List.filter
           (fun u => String.eqb (netloc u) (netloc base_url)
                     && bool_decide (u ∉ visited_urls self))
           (map Normal.normalize resolved))
      (traverse (urljoin current_url) (find_all_a soup))
  /\ CapillaryDocScraper.clean "https://docs.x.com/a?x=1#frag"
     = "https://docs.x.com/a"
  /\ Normal.normalize "https://docs.x.com/a?x=1#frag" = "https://docs.x.com/a".
Proof.
  split; [|split; reflexivity].
  rewrite get_links_resolved.
  destruct (traverse (urljoin current_url) (find_all_a soup)) as [resolved|];
    [|reflexivity].
  simpl. do 2 f_equal. apply map_ext. intros u. apply clean_normalize.
Qed.

(** ** Properties of the crawl loop *)
Section CrawlFacts.

Variable base_url : string.
Variable urljoin : string -> string -> option string.
Variable netloc : string -> string.
Variable session_get : list string -> string -> Response.

Abbreviation scrape_page :=
  (CapillaryDocScraper.scrape_page base_url urljoin netloc session_get).
Abbreviation loop_body :=
  (CapillaryDocScraper.loop_body base_url urljoin netloc session_get).
Abbreviation loop :=
  (CapillaryDocScraper.loop base_url urljoin netloc session_get).
Abbreviation loop_test := CapillaryDocScraper.loop_test.

(** *** One call of [scrape_page] *)

Lemma scrape_page_raises (self : Scraper) (url : string) :
  url ∉ visited_urls self ->
  session_get (requested self) url = Raises ->
  scrape_page self url
  = (ret_list [],
     mkScraper (visited_urls self) (scraped_data self)
               (requests self ++ [(url, false)])%list).
Proof.
  intros Hnew Hget. unfold CapillaryDocScraper.scrape_page.
  rewrite bool_decide_eq_false_2 by exact Hnew.
  unfold requested in Hget. now rewrite Hget.
Qed.

(** The scraper after the call, whether [get_links] raises or not. *)
Lemma scrape_page_state (self : Scraper) (url : string) :
  snd (scrape_page self url)
  = if bool_decide (url ∈ visited_urls self) then self
    else match session_get (requested self) url with
         | Raises =>
             mkScraper (visited_urls self) (scraped_data self)
                       (requests self ++ [(url, false)])%list
         | Parsed soup =>
             let record := CapillaryDocScraper.extract_content soup url in
             mkScraper ({[url]} ∪ visited_urls self)
               (if negb (String.eqb (Py.get (content record) "") "")
                then (scraped_data self ++ [record])%list
                else scraped_data self)
               (requests self ++ [(url, true)])%list
         end.
Proof.
  unfold CapillaryDocScraper.scrape_page, requested.
  destruct (bool_decide _); [reflexivity|].
  destruct (session_get _ url) as [|soup]; [reflexivity|]. cbv zeta.
  now destruct (CapillaryDocScraper.get_links _ _ _ _ _ _).
Qed.

(** A raise in [get_links] comes after the page is stored and marked:
    the call returns no link, the URL is visited. *)
Lemma scrape_page_links_raise (self : Scraper) (url : string) (soup : Soup) :
  url ∉ visited_urls self ->
  session_get (requested self) url = Parsed soup ->
  traverse (urljoin url) (find_all_a soup) = None ->
  fst (scrape_page self url) = ret_list []
  /\ url ∈ visited_urls (snd (scrape_page self url)).
Proof.
  intros Hnew Hget Hraise. split.
  - unfold CapillaryDocScraper.scrape_page.
    rewrite bool_decide_eq_false_2 by exact Hnew.
    unfold requested in Hget. rewrite Hget. cbv zeta.
    now rewrite get_links_resolved, Hraise.
  - rewrite scrape_page_state, bool_decide_eq_false_2, Hget by exact Hnew.
    simpl. set_solver.
Qed.

Lemma scrape_page_records (self : Scraper) (url : string) :
  Forall has_content (scraped_data self) ->
  Forall has_content (scraped_data (snd (scrape_page self url))).
Proof.
  intros Hall. rewrite scrape_page_state.
  destruct (bool_decide _); [exact Hall|].
  destruct (session_get _ url) as [|soup]; [exact Hall|]. simpl.
  destruct (String.eqb _ "") eqn:E; simpl; [exact Hall|].
  apply Forall_app. split; [exact Hall|].
  constructor; [|constructor].
  unfold has_content. now apply String.eqb_neq.
Qed.

Lemma never_refetched_app (reqs : list (string * bool)) (url : string)
    (ok : bool) :
  never_refetched reqs ->
  ~ In (url, true) reqs ->
  never_refetched (reqs ++ [(url, ok)]).
Proof.
  induction reqs as [|[u b] reqs IH]; simpl; intros Hreqs Hurl.
  - split; [intros _ [] | exact I].
  - destruct Hreqs as [Hu Hreqs]. split.
    + intros ->. rewrite map_app, in_app_iff. simpl.
      intros [Hin|[<-|[]]]; [now apply Hu | apply Hurl; now left].
    + apply IH; [exact Hreqs | intros Hin; apply Hurl; now right].
Qed.

Lemma scrape_page_fetched_once (self : Scraper) (url : string) :
  fetched_once self -> fetched_once (snd (scrape_page self url)).
Proof.
  intros [Hnd Hvis]. rewrite scrape_page_state.
  destruct (bool_decide (url ∈ visited_urls self)) eqn:E; [now split|].
  apply bool_decide_eq_false in E.
  assert (Hfresh : ~ In (url, true) (requests self))
    by (intros Hin; apply E; now apply Hvis).
  destruct (session_get _ url) as [|soup]; simpl; unfold fetched_once;
    simpl; (split; [now apply never_refetched_app|]);
    intros u Hu; apply in_app_or in Hu as [Hu|[Hu|[]]].
  - now apply Hvis.
  - discriminate.
  - apply Hvis in Hu. set_solver.
  - injection Hu as ->. set_solver.
Qed.

(** *** One iteration of the loop *)

Lemma loop_body_skip (c : Crawl) (current_url : string) (rest : list string) :
  urls_to_visit c = current_url :: rest ->
  current_url ∈ visited_urls (scraper c) ->
  loop_body c = mkCrawl (scraper c) rest (pages_scraped c).
Proof.
  intros Hq Hvis. unfold CapillaryDocScraper.loop_body. rewrite Hq.
  now rewrite bool_decide_eq_true_2 by exact Hvis.
Qed.

Lemma loop_body_new (c : Crawl) (current_url : string) (rest : list string) :
  urls_to_visit c = current_url :: rest ->
  current_url ∉ visited_urls (scraper c) ->
  loop_body c
  = mkCrawl (snd (scrape_page (scraper c) current_url))
      (if truthy (fst (scrape_page (scraper c) current_url))
       then (rest ++ links_of (fst (scrape_page (scraper c) current_url)))%list
       else rest)
      (pages_scraped c + 1).
Proof.
  intros Hq Hnew. unfold CapillaryDocScraper.loop_body. rewrite Hq.
  rewrite bool_decide_eq_false_2 by exact Hnew.
  now destruct (scrape_page (scraper c) current_url).
Qed.

Lemma loop_body_cases (c : Crawl) :
  loop_body c = c
  \/ (exists url rest, urls_to_visit c = url :: rest
        /\ loop_body c = mkCrawl (scraper c) rest (pages_scraped c))
  \/ (exists url, scraper (loop_body c) = snd (scrape_page (scraper c) url)
        /\ pages_scraped (loop_body c) = pages_scraped c + 1).
Proof.
  destruct (urls_to_visit c) as [|url rest] eqn:Hq.
  - left. unfold CapillaryDocScraper.loop_body. now rewrite Hq.
  - destruct (decide (url ∈ visited_urls (scraper c))) as [Hvis|Hnew].
    + right. left. exists url, rest. split; [reflexivity|].
      now apply loop_body_skip with url.
    + right. right. exists url.
      rewrite (loop_body_new c url rest Hq Hnew). auto.
Qed.

Lemma loop_body_records (c : Crawl) :
  Forall has_content (scraped_data (scraper c)) ->
  Forall has_content (scraped_data (scraper (loop_body c))).
Proof.
  intros Hall.
  destruct (loop_body_cases c) as [->|[(url & rest & _ & ->)|(url & -> & _)]];
    auto using scrape_page_records.
Qed.

Lemma loop_body_fetched_once (c : Crawl) :
  fetched_once (scraper c) -> fetched_once (scraper (loop_body c)).
Proof.
  intros Hinv.
  destruct (loop_body_cases c) as [->|[(url & rest & _ & ->)|(url & -> & _)]];
    auto using scrape_page_fetched_once.
Qed.

(** *** The whole loop *)

(** An invariant of the loop body holds when the loop is left. *)
Lemma loop_invariant (P : Crawl -> Prop) :
  (forall c, P c -> P (loop_body c)) ->
  forall fuel max_pages c c',
    P c -> loop fuel max_pages c = Some c' -> P c'.
Proof.
  intros Hstep fuel max_pages. induction fuel as [|fuel IH]; intros c c' Hc;
    simpl; destruct (loop_test max_pages c); try discriminate;
    try (intros [= <-]; exact Hc).
  apply IH. now apply Hstep.
Qed.

Lemma loop_exit (fuel : nat) (max_pages : Z) (c c' : Crawl) :
  loop fuel max_pages c = Some c' -> loop_test max_pages c' = false.
Proof.
  revert c. induction fuel as [|fuel IH]; intros c; simpl;
    destruct (loop_test max_pages c) eqn:E; try discriminate;
    try (intros [= <-]; exact E).
  apply IH.
Qed.

Lemma loop_budget (fuel : nat) (max_pages : Z) (c c' : Crawl) :
  pages_scraped c <= max_pages ->
  loop fuel max_pages c = Some c' -> pages_scraped c' <= max_pages.
Proof.
  revert c. induction fuel as [|fuel IH]; intros c Hc; simpl;
    destruct (loop_test max_pages c) eqn:E; try discriminate;
    try (intros [= <-]; exact Hc).
  apply IH. unfold CapillaryDocScraper.loop_test in E.
  destruct (urls_to_visit c) as [|url rest] eqn:Hq; [discriminate|].
  apply Z.ltb_lt in E.
  destruct (loop_body_cases c) as [->|[(u & r & _ & ->)|(u & _ & ->)]];
    simpl; lia.
Qed.

(** The loop ends: the budget left and, under it, the length of the
    frontier decrease. *)
Lemma loop_terminates (max_pages : Z) (c : Crawl) :
  exists fuel c', loop fuel max_pages c = Some c'.
Proof.
  remember (Z.to_nat (max_pages - pages_scraped c)) as budget eqn:Hb.
  revert c Hb.
  induction budget as [|budget IHb]; intros [self frontier pages]; simpl;
    intros Hb.
  - exists 0%nat. eexists. simpl. unfold CapillaryDocScraper.loop_test.
    simpl. destruct frontier; [reflexivity|].
    rewrite (proj2 (Z.ltb_ge pages max_pages)) by lia. reflexivity.
  - revert self. induction frontier as [|url rest IHq]; intros self.
    + exists 0%nat. eexists. reflexivity.
    + destruct (decide (url ∈ visited_urls self)) as [Hvis|Hnew].
      * destruct (IHq self) as (fuel & c' & Hrun).
        exists (S fuel), c'. simpl. unfold CapillaryDocScraper.loop_test.
        simpl. rewrite (proj2 (Z.ltb_lt pages max_pages)) by lia.
        now rewrite (loop_body_skip (mkCrawl self (url :: rest) pages)
                       url rest eq_refl Hvis).
      * pose (c := mkCrawl self (url :: rest) pages).
        destruct (IHb (loop_body c)) as (fuel & c' & Hrun).
        { rewrite (loop_body_new c url rest eq_refl Hnew). simpl. lia. }
        exists (S fuel), c'. simpl. unfold CapillaryDocScraper.loop_test.
        simpl. rewrite (proj2 (Z.ltb_lt pages max_pages)) by lia.
        exact Hrun.
Qed.

End CrawlFacts.

(** ** Claims about the crawler *)

(** C3: in an iteration whose dequeued URL is not yet visited and whose
    fetch or parse fails (the request, the status check or the HTML parser
    raises), the failure is absorbed: the URL is not added to the visited
    set, no link is enqueued (the frontier only loses the URL), the records
    are unchanged, the counter of scraped pages grows by one, and the loop
    goes on with the next iteration. *)
Theorem failed_page_absorbed (base_url : string)
    (urljoin : string -> string -> option string) (netloc : string -> string)
    (session_get : list string -> string -> Response)
    (max_pages : Z) (fuel : nat) (c : Crawl)
    (current_url : string) (rest : list string) :
  urls_to_visit c = current_url :: rest ->
  pages_scraped c < max_pages ->
  current_url ∉ visited_urls (scraper c) ->
  session_get (requested (scraper c)) current_url = Raises ->
  let c' :=
    CapillaryDocScraper.loop_body base_url urljoin netloc session_get c in
  visited_urls (scraper c') = visited_urls (scraper c)
  /\ urls_to_visit c' = rest
  /\ scraped_data (scraper c') = scraped_data (scraper c)
  /\ pages_scraped c' = pages_scraped c + 1
  /\ CapillaryDocScraper.loop base_url urljoin netloc session_get
       (S fuel) max_pages c
     = CapillaryDocScraper.loop base_url urljoin netloc session_get
         fuel max_pages c'.
Proof.
  intros Hq Hbudget Hnew Hget c'. subst c'.
  rewrite (loop_body_new _ _ _ _ c current_url rest Hq Hnew).
  rewrite (scrape_page_raises _ _ _ _ _ _ Hnew Hget). simpl.
  repeat split.
  unfold CapillaryDocScraper.loop_test. rewrite Hq.
  rewrite (proj2 (Z.ltb_lt _ _) Hbudget).
  rewrite (loop_body_new _ _ _ _ c current_url rest Hq Hnew).
  now rewrite (scrape_page_raises _ _ _ _ _ _ Hnew Hget).
Qed.

Lemma failed_page_absorbed_witness :
  let c' :=
    CapillaryDocScraper.loop_body Site.base Site.urljoin Site.netloc
      Site.broken_link Site.after_home in
  visited_urls (scraper c') = visited_urls (scraper Site.after_home)
  /\ urls_to_visit c' = [Site.missing]
  /\ scraped_data (scraper c') = scraped_data (scraper Site.after_home)
  /\ pages_scraped c' = pages_scraped Site.after_home + 1
  /\ CapillaryDocScraper.loop Site.base Site.urljoin Site.netloc
       Site.broken_link 3 10 Site.after_home
     = CapillaryDocScraper.loop Site.base Site.urljoin Site.netloc
         Site.broken_link 2 10 c'.
Proof.
  apply (failed_page_absorbed Site.base Site.urljoin Site.netloc
           Site.broken_link 10 2 Site.after_home Site.missing [Site.missing]).
  - vm_compute. reflexivity.
  - vm_compute. reflexivity.
  - apply (bool_decide_unpack _). vm_compute. exact I.
  - vm_compute. reflexivity.
Defined.

(** C4, as stated: no URL is ever fetched twice within one crawl. It is:
    the home page links twice to a page whose fetch fails, which is
    requested once for each of its two entries in the frontier. *)
Lemma failed_url_fetched_twice :
  exists c : Crawl,
    Site.crawl Site.broken_link 10 = Some c
    /\ requested (scraper c) = [Site.base; Site.missing; Site.missing]
    /\ ~ List.NoDup (requested (scraper c)).
Proof.
  eexists. split; [vm_compute; reflexivity|].
  split; [vm_compute; reflexivity|].
  intros H. vm_compute in H.
  inversion H as [|? ? _ H1]. inversion H1 as [|? ? Hnot _].
  apply Hnot. now left.
Qed.

(** C4 (amended): dequeuing a URL that is already in the visited set
    triggers no fetch, adds no record, enqueues no link and leaves the
    counter of scraped pages as it is; consequently, within one crawl, no
    URL is fetched again after a fetch of it succeeded, however often it
    occurs in the frontier. *)
Theorem visited_url_never_refetched (base_url : string)
    (urljoin : string -> string -> option string) (netloc : string -> string)
    (session_get : list string -> string -> Response) :
  (forall (c : Crawl) (current_url : string) (rest : list string),
     urls_to_visit c = current_url :: rest ->
     current_url ∈ visited_urls (scraper c) ->
     CapillaryDocScraper.loop_body base_url urljoin netloc session_get c
     = mkCrawl (scraper c) rest (pages_scraped c))
  /\ (forall (fuel : nat) (max_pages : Z) (c : Crawl),
        CapillaryDocScraper.scrape_documentation base_url urljoin netloc
          session_get fuel CapillaryDocScraper.init max_pages = Some c ->
        never_refetched (requests (scraper c))).
Proof.
  split.
  - intros c current_url rest. apply loop_body_skip.
  - intros fuel max_pages c Hrun.
    apply (loop_invariant base_url urljoin netloc session_get
             (fun c => fetched_once (scraper c))
             (loop_body_fetched_once base_url urljoin netloc session_get)
             fuel max_pages _ c) in Hrun.
    + apply Hrun.
    + split; [exact I | intros u []].
Qed.

Lemma visited_url_never_refetched_witness :
  CapillaryDocScraper.loop_body Site.base Site.urljoin Site.netloc
    Site.broken_link
    (mkCrawl (scraper Site.after_home) [Site.base; Site.missing] 1)
  = mkCrawl (scraper Site.after_home) [Site.missing] 1
  /\ exists c : Crawl,
       Site.crawl Site.broken_link 10 = Some c
       /\ never_refetched (requests (scraper c)).
Proof.
  destruct (visited_url_never_refetched Site.base Site.urljoin Site.netloc
              Site.broken_link) as [Hskip Hrun].
  split.
  - apply (Hskip (mkCrawl (scraper Site.after_home)
                          [Site.base; Site.missing] 1) Site.base).
    + reflexivity.
    + apply (bool_decide_unpack _). vm_compute. exact I.
  - eexists. split; [vm_compute; reflexivity|].
    apply (Hrun 100%nat 10). vm_compute. reflexivity.
Defined.

(** C5: for every [max_pages], every state of the crawl and every site
    (a page has a list of links, so finitely many) the loop of
    scrape_documentation ends, in a state that fails the loop test; and
    with [max_pages = 5], when URLs remain in the frontier at the end, the
    counter of scraped pages, which starts at 0 and grows by one at a time,
    is exactly 5. *)
Theorem crawl_terminates_within_budget (base_url : string)
    (urljoin : string -> string -> option string) (netloc : string -> string)
    (session_get : list string -> string -> Response) :
  (forall (max_pages : Z) (c : Crawl),
     exists (fuel : nat) (c' : Crawl),
       CapillaryDocScraper.loop base_url urljoin netloc session_get
         fuel max_pages c = Some c'
       /\ CapillaryDocScraper.loop_test max_pages c' = false)
  /\ (forall (self : Scraper) (fuel : nat) (c' : Crawl),
        CapillaryDocScraper.scrape_documentation base_url urljoin netloc
          session_get fuel self 5 = Some c' ->
        urls_to_visit c' <> [] ->
        pages_scraped c' = 5).
Proof.
  split.
  - intros max_pages c.
    destruct (loop_terminates base_url urljoin netloc session_get max_pages c)
      as (fuel & c' & Hrun).
    exists fuel, c'. split; [exact Hrun|].
    now apply loop_exit in Hrun.
  - intros self fuel c' Hrun Hleft.
    unfold CapillaryDocScraper.scrape_documentation in Hrun.
    pose proof (loop_exit _ _ _ _ _ _ _ _ Hrun) as Hexit.
    apply loop_budget in Hrun; [|simpl; lia].
    unfold CapillaryDocScraper.loop_test in Hexit.
    destruct (urls_to_visit c'); [congruence|].
    apply Z.ltb_ge in Hexit. lia.
Qed.

Lemma crawl_terminates_within_budget_witness :
  exists c' : Crawl,
    Site.crawl Site.endless 5 = Some c'
    /\ urls_to_visit c' = ["https://docs.x.com/aaaaa"]
    /\ pages_scraped c' = 5.
Proof.
  eexists. split; [vm_compute; reflexivity|].
  split; [vm_compute; reflexivity|].
  apply (proj2 (crawl_terminates_within_budget Site.base Site.urljoin
                  Site.netloc Site.endless)
           CapillaryDocScraper.init 100%nat).
  - vm_compute. reflexivity.
  - vm_compute. discriminate.
Defined.

(** C7: a page whose extracted content is the empty string is not appended
    to the records, the records of a scraper all have non-empty content
    after an iteration of the crawl loop if they had before, and so has
    every record of the corpus a crawl produces. *)
Theorem records_have_content (base_url : string)
    (urljoin : string -> string -> option string) (netloc : string -> string)
    (session_get : list string -> string -> Response) :
  (forall (self : Scraper) (url : string) (soup : Soup),
     session_get (requested self) url = Parsed soup ->
     content (CapillaryDocScraper.extract_content soup url) = Some "" ->
     scraped_data
       (snd (CapillaryDocScraper.scrape_page base_url urljoin netloc
               session_get self url))
     = scraped_data self)
  /\ (forall c : Crawl,
        Forall has_content (scraped_data (scraper c)) ->
        Forall has_content
          (scraped_data
             (scraper (CapillaryDocScraper.loop_body base_url urljoin netloc
                         session_get c))))
  /\ (forall (fuel : nat) (max_pages : Z) (c : Crawl),
        CapillaryDocScraper.scrape_documentation base_url urljoin netloc
          session_get fuel CapillaryDocScraper.init max_pages = Some c ->
        Forall has_content (scraped_data (scraper c))).
Proof.
  split; [|split].
  - intros self url soup Hget Hempty.
    rewrite scrape_page_state.
    destruct (bool_decide _); [reflexivity|].
    rewrite Hget. cbv zeta. rewrite Hempty. reflexivity.
  - apply loop_body_records.
  - intros fuel max_pages c Hrun.
    apply (loop_invariant base_url urljoin netloc session_get
             (fun c => Forall has_content (scraped_data (scraper c)))
             (loop_body_records base_url urljoin netloc session_get)
             fuel max_pages _ c) in Hrun; [exact Hrun | constructor].
Qed.

Lemma records_have_content_witness :
  scraped_data
    (snd (CapillaryDocScraper.scrape_page Site.base Site.urljoin Site.netloc
            Site.with_blank CapillaryDocScraper.init Site.blank))
  = []
  /\ Forall has_content
       (scraped_data
          (scraper (CapillaryDocScraper.loop_body Site.base Site.urljoin
                      Site.netloc Site.with_blank
                      (CapillaryDocScraper.start Site.base
                         CapillaryDocScraper.init))))
  /\ exists c : Crawl,
       Site.crawl Site.with_blank 10 = Some c
       /\ requested (scraper c) = [Site.base; Site.blank]
       /\ List.length (scraped_data (scraper c)) = 1%nat
       /\ Forall has_content (scraped_data (scraper c)).
Proof.
  destruct (records_have_content Site.base Site.urljoin Site.netloc
              Site.with_blank) as (Hempty & Hstep & Hrun).
  split; [|split].
  - apply (Hempty CapillaryDocScraper.init Site.blank
                  (mkSoup (Some "Blank") None None None None []));
      vm_compute; reflexivity.
  - apply (Hstep (CapillaryDocScraper.start Site.base
                    CapillaryDocScraper.init)).
    constructor.
  - eexists. split; [vm_compute; reflexivity|].
    split; [vm_compute; reflexivity|].
    split; [vm_compute; reflexivity|].
    apply (Hrun 100%nat 10). vm_compute. reflexivity.
Defined.

(** ** The round trip of the json module *)

Section JsonFacts.

Import Json.

Lemma Value_nested_ind (P : Value -> Prop) :
  (forall s, P (VStr s)) ->
  (forall items, Forall P items -> P (VList items)) ->
  (forall members, Forall (fun kv => P (snd kv)) members -> P (VDict members)) ->
  forall v, P v.
Proof.
  intros Hs Hl Hd. fix IH 1. intros [s|items|members].
  - apply Hs.
  - apply Hl. induction items as [|v items IHi]; constructor; [apply IH | exact IHi].
  - apply Hd. induction members as [|[k v] members IHm]; constructor;
      [apply IH | exact IHm].
Qed.

Fixpoint encode_items (level : nat) (items : list Value) (rest : string)
    : string :=
  match items with
  | [] => rest
  | v :: items' =>
      String "," (newline_indent level
                    (encode level v (encode_items level items' rest)))
  end.

Fixpoint encode_members (level : nat) (members : list (string * Value))
    (rest : string) : string :=
  match members with
  | [] => rest
  | (k, v) :: members' =>
      String ","
        (newline_indent level
           (encode_string k
              (String ":" (String " "
                 (encode level v (encode_members level members' rest))))))
  end.

Lemma encode_list_cons (level : nat) (v0 : Value) (items : list Value)
    (rest : string) :
  encode level (VList (v0 :: items)) rest
  = String "["
      (newline_indent (S level)
         (encode (S level) v0
            (encode_items (S level) items
               (newline_indent level (String "]" rest))))).
Proof.
  simpl. do 3 f_equal.
  generalize (newline_indent level (String "]" rest)).
  induction items as [|v items IH]; intros tail; simpl; [reflexivity|].
  now rewrite IH.
Qed.

Lemma encode_dict_cons (level : nat) (k0 : string) (v0 : Value)
    (members : list (string * Value)) (rest : string) :
  encode level (VDict ((k0, v0) :: members)) rest
  = String "{"
      (newline_indent (S level)
         (encode_string k0
            (String ":" (String " "
               (encode (S level) v0
                  (encode_members (S level) members
                     (newline_indent level (String "}" rest)))))))).
Proof.
  simpl. do 6 f_equal.
  generalize (newline_indent level (String "}" rest)).
  induction members as [|[k v] members IH]; intros tail; simpl; [reflexivity|].
  now rewrite IH.
Qed.

Lemma scanstring_escape_char (c : ascii) (tail : string) :
  scanstring (escape_char c tail)
  = match scanstring tail with
    | Some (str, r) => Some (String c str, r)
    | None => None
    end.
Proof. destruct c as [[] [] [] [] [] [] [] []]; reflexivity. Qed.

Lemma scanstring_escape (s rest : string) :
  scanstring (escape s (String QUOTE rest)) = Some (s, rest).
Proof.
  induction s as [|c s IH]; simpl; [reflexivity|].
  now rewrite scanstring_escape_char, IH.
Qed.

#[local] Arguments newline_indent : simpl never.
#[local] Arguments encode : simpl never.

Lemma skip_ws_spaces (n : nat) (rest : string) :
  skip_ws (spaces n rest) = skip_ws rest.
Proof. induction n as [|n IH]; simpl; [reflexivity | exact IH]. Qed.

Lemma skip_ws_newline_indent (level : nat) (rest : string) :
  skip_ws (newline_indent level rest) = skip_ws rest.
Proof. unfold newline_indent. apply skip_ws_spaces. Qed.

(** An encoded value starts with a quote, a bracket or a brace. *)
Definition opens (s : string) : Prop :=
  exists tail, s = String QUOTE tail \/ s = String "[" tail
               \/ s = String "{" tail.

Lemma encode_opens (level : nat) (v : Value) (rest : string) :
  opens (encode level v rest).
Proof.
  destruct v as [s|[|v0 items]|[|[k0 v0] members]]; simpl; eexists; eauto.
Qed.

Lemma skip_ws_opens (s : string) : opens s -> skip_ws s = s.
Proof. intros [tail [->|[->| ->]]]; reflexivity. Qed.

Fixpoint size (v : Value) : nat :=
  match v with
  | VStr _ => 1%nat
  | VList items =>
      S ((fix sum (l : list Value) : nat :=
            match l with
            | [] => 0%nat
            | v :: l' => S (size v + sum l')
            end) items)
  | VDict members =>
      S ((fix sum (l : list (string * Value)) : nat :=
            match l with
            | [] => 0%nat
            | (_, v) :: l' => S (size v + sum l')
            end) members)
  end.

Fixpoint size_items (l : list Value) : nat :=
  match l with
  | [] => 0%nat
  | v :: l' => S (size v + size_items l')
  end.

Fixpoint size_members (l : list (string * Value)) : nat :=
  match l with
  | [] => 0%nat
  | (_, v) :: l' => S (size v + size_members l')
  end.

Lemma size_list (items : list Value) :
  size (VList items) = S (size_items items).
Proof.
  simpl; f_equal; induction items as [|v items IH]; simpl; congruence.
Qed.

Lemma size_dict (members : list (string * Value)) :
  size (VDict members) = S (size_members members).
Proof.
  simpl; f_equal; induction members as [|[k v] members IH]; simpl; congruence.
Qed.

(** Decoding what [encode] wrote gives the value back, with enough fuel. *)
Definition decodes (v : Value) : Prop :=
  forall (level : nat) (rest : string) (fuel : nat),
    (size v <= fuel)%nat ->
    parse fuel (encode level v rest) = Some (v, rest).

(** *** The steps of the decoder *)

Lemma parse_string (fuel : nat) (s str r : string) :
  scanstring s = Some (str, r) ->
  parse (S fuel) (String QUOTE s) = Some (VStr str, r).
Proof. intros H. simpl. now rewrite H. Qed.

Lemma parse_list (fuel : nat) (s s' r : string) (items : list Value) :
  skip_ws s = s' -> opens s' ->
  parse_array fuel s' = Some (items, r) ->
  parse (S fuel) (String "[" s) = Some (VList items, r).
Proof.
  intros Hws [tail [->|[->| ->]]] H; unfold QUOTE in *; simpl;
    rewrite Hws; simpl; rewrite H; reflexivity.
Qed.

Lemma parse_dict (fuel : nat) (s s' r : string)
    (pairs : list (string * Value)) :
  skip_ws s = String QUOTE s' ->
  parse_object fuel s' = Some (pairs, r) ->
  parse (S fuel) (String "{" s) = Some (VDict (dict_of pairs), r).
Proof. intros Hws H. simpl. rewrite Hws. simpl. now rewrite H. Qed.

Lemma parse_array_last (fuel : nat) (s r tail : string) (v : Value) :
  parse fuel s = Some (v, r) ->
  skip_ws r = String "]" tail ->
  parse_array (S fuel) s = Some ([v], tail).
Proof. intros H Hws. simpl. now rewrite H, Hws. Qed.

Lemma parse_array_next (fuel : nat) (s r r' tail : string) (v : Value)
    (items : list Value) :
  parse fuel s = Some (v, r) ->
  skip_ws r = String "," r' ->
  parse_array fuel (skip_ws r') = Some (items, tail) ->
  parse_array (S fuel) s = Some (v :: items, tail).
Proof. intros H Hws Hmore. simpl. now rewrite H, Hws, Hmore. Qed.

Lemma parse_object_last (fuel : nat) (s r r' r'' tail key : string)
    (v : Value) :
  scanstring s = Some (key, r) ->
  skip_ws r = String ":" r' ->
  parse fuel (skip_ws r') = Some (v, r'') ->
  skip_ws r'' = String "}" tail ->
  parse_object (S fuel) s = Some ([(key, v)], tail).
Proof. intros Hk Hc Hv Hws. simpl. now rewrite Hk, Hc, Hv, Hws. Qed.

Lemma parse_object_next (fuel : nat) (s r r' r'' r3 r4 tail key : string)
    (v : Value) (pairs : list (string * Value)) :
  scanstring s = Some (key, r) ->
  skip_ws r = String ":" r' ->
  parse fuel (skip_ws r') = Some (v, r'') ->
  skip_ws r'' = String "," r3 ->
  skip_ws r3 = String QUOTE r4 ->
  parse_object fuel r4 = Some (pairs, tail) ->
  parse_object (S fuel) s = Some ((key, v) :: pairs, tail).
Proof.
  intros Hk Hc Hv Hws Hq Hmore. simpl.
  rewrite Hk, Hc, Hv, Hws, Hq. simpl. now rewrite Hmore.
Qed.

(** *** Decoding encoded items and members *)

Lemma parse_array_encode (level : nat) (tail : string)
    (items : list Value) :
  Forall decodes items ->
  forall (v0 : Value) (fuel : nat),
    decodes v0 ->
    (size_items (v0 :: items) <= fuel)%nat ->
    parse_array fuel
      (encode level v0
         (encode_items level items
            (newline_indent (pred level) (String "]" tail))))
    = Some (v0 :: items, tail).
Proof.
  induction 1 as [|v1 items Hv1 _ IH]; intros v0 fuel Hv0 Hfuel;
    (destruct fuel as [|fuel]; [simpl in Hfuel; lia|]); simpl in Hfuel.
  - eapply parse_array_last.
    + apply Hv0. lia.
    + change (encode_items level [] ?t) with t.
      now rewrite skip_ws_newline_indent.
  - eapply parse_array_next.
    + apply Hv0. lia.
    + reflexivity.
    + rewrite skip_ws_newline_indent, skip_ws_opens by apply encode_opens.
      apply IH; [exact Hv1 | simpl; lia].
Qed.

Lemma parse_object_encode (level : nat) (tail : string)
    (members : list (string * Value)) :
  Forall (fun kv => decodes (snd kv)) members ->
  forall (k0 : string) (v0 : Value) (fuel : nat),
    decodes v0 ->
    (size_members ((k0, v0) :: members) <= fuel)%nat ->
    parse_object fuel
      (escape k0
         (String QUOTE
            (String ":" (String " "
               (encode level v0
                  (encode_members level members
                     (newline_indent (pred level) (String "}" tail))))))))
    = Some ((k0, v0) :: members, tail).
Proof.
  induction 1 as [|[k1 v1] members Hv1 _ IH]; intros k0 v0 fuel Hv0 Hfuel;
    (destruct fuel as [|fuel]; [simpl in Hfuel; lia|]); simpl in Hfuel.
  - eapply parse_object_last.
    + apply scanstring_escape.
    + reflexivity.
    + change (skip_ws (String " " ?t)) with (skip_ws t).
      rewrite skip_ws_opens by apply encode_opens. apply Hv0. lia.
    + change (encode_members level [] ?t) with t.
      now rewrite skip_ws_newline_indent.
  - eapply parse_object_next.
    + apply scanstring_escape.
    + reflexivity.
    + change (skip_ws (String " " ?t)) with (skip_ws t).
      rewrite skip_ws_opens by apply encode_opens. apply Hv0. lia.
    + reflexivity.
    + rewrite skip_ws_newline_indent. reflexivity.
    + apply IH; [exact Hv1 | simpl; lia].
Qed.

Lemma dict_set_fresh (k : string) (v : Value) (d : list (string * Value)) :
  ~ In k (map fst d) -> dict_set k v d = (d ++ [(k, v)])%list.
Proof.
  intros Hk. unfold dict_set.
  assert (E : existsb (fun kv => String.eqb (fst kv) k) d = false).
  { apply not_true_is_false. intros Hex.
    apply existsb_exists in Hex as [[k' v'] [Hin Heq]].
    apply String.eqb_eq in Heq. simpl in Heq. subst k'.
    apply Hk. apply in_map_iff. now exists (k, v'). }
  now rewrite E.
Qed.

Lemma dict_of_nodup (pairs : list (string * Value)) :
  List.NoDup (map fst pairs) -> dict_of pairs = pairs.
Proof.
  unfold dict_of.
  enough (H : forall d,
    List.NoDup (map fst (d ++ pairs)%list) ->
    fold_left (fun d kv => dict_set (fst kv) (snd kv) d) pairs d
    = (d ++ pairs)%list) by apply (H []).
  induction pairs as [|[k v] pairs IH]; intros d Hnd; simpl.
  - now rewrite app_nil_r.
  - rewrite dict_set_fresh.
    + rewrite IH; rewrite <- app_assoc; [reflexivity | exact Hnd].
    + rewrite map_app in Hnd. simpl in Hnd.
      apply NoDup_remove_2 in Hnd. intros Hin. apply Hnd.
      apply in_or_app. now left.
Qed.

Lemma parse_encode (v : Value) : Wf v -> decodes v.
Proof.
  induction v as [s|items IH|members IH] using Value_nested_ind;
    intros Hwf level rest fuel Hfuel.
  - destruct fuel as [|fuel]; [simpl in Hfuel; lia|].
    apply parse_string, scanstring_escape.
  - inversion Hwf as [|? Hitems|]; subst.
    rewrite size_list in Hfuel.
    destruct fuel as [|fuel]; [lia|].
    destruct items as [|v0 items]; [reflexivity|].
    rewrite encode_list_cons.
    apply Forall_cons_iff in IH as [IH0 IH].
    apply Forall_cons_iff in Hitems as [Hw0 Hitems].
    assert (Hdec : Forall decodes items).
    { apply List.Forall_forall. intros v Hv.
      rewrite List.Forall_forall in IH, Hitems. auto. }
    eapply parse_list.
    + rewrite skip_ws_newline_indent. apply skip_ws_opens, encode_opens.
    + apply encode_opens.
    + apply (parse_array_encode (S level) rest items Hdec v0 fuel (IH0 Hw0)).
      exact (le_S_n _ _ Hfuel).
  - inversion Hwf as [| |? Hkeys Hmembers]; subst.
    rewrite size_dict in Hfuel.
    destruct fuel as [|fuel]; [lia|].
    destruct members as [|[k0 v0] members]; [reflexivity|].
    rewrite encode_dict_cons, <- (dict_of_nodup _ Hkeys).
    apply Forall_cons_iff in IH as [IH0 IH].
    apply Forall_cons_iff in Hmembers as [Hw0 Hmembers].
    assert (Hdec : Forall (fun kv => decodes (snd kv)) members).
    { apply List.Forall_forall. intros kv Hkv.
      rewrite List.Forall_forall in IH, Hmembers. auto. }
    eapply parse_dict.
    + rewrite skip_ws_newline_indent. reflexivity.
    + apply (parse_object_encode (S level) rest members Hdec k0 v0 fuel
               (IH0 Hw0)).
      exact (le_S_n _ _ Hfuel).
Qed.

(** *** The text is long enough to serve as fuel *)

Lemma length_escape_char (c : ascii) (rest : string) :
  (S (String.length rest) <= String.length (escape_char c rest))%nat.
Proof. destruct c as [[] [] [] [] [] [] [] []]; simpl; lia. Qed.

Lemma length_escape (s rest : string) :
  (String.length rest <= String.length (escape s rest))%nat.
Proof.
  induction s as [|c s IH]; simpl; [lia|].
  pose proof (length_escape_char c (escape s rest)). lia.
Qed.

Lemma length_encode_string (s rest : string) :
  (2 + String.length rest <= String.length (encode_string s rest))%nat.
Proof.
  unfold encode_string. simpl.
  pose proof (length_escape s (String QUOTE rest)) as H. simpl in H. lia.
Qed.

Lemma length_spaces (n : nat) (rest : string) :
  (String.length rest <= String.length (spaces n rest))%nat.
Proof. induction n as [|n IH]; simpl; lia. Qed.

Lemma length_newline_indent (level : nat) (rest : string) :
  (S (String.length rest) <= String.length (newline_indent level rest))%nat.
Proof.
  unfold newline_indent.
  pose proof (length_spaces (2 * level) rest).
  change (String.length (String LF ?t)) with (S (String.length t)). lia.
Qed.

(** The text of a value is at least as long as the value is large. *)
Definition fits (v : Value) : Prop :=
  forall (level : nat) (rest : string),
    (size v + String.length rest
     <= String.length (encode level v rest))%nat.

Lemma length_encode_items (level : nat) (items : list Value) (rest : string) :
  Forall fits items ->
  (size_items items + String.length rest
   <= String.length (encode_items level items rest))%nat.
Proof.
  induction 1 as [|v items Hv _ IH];
    cbn [encode_items size_items String.length]; [lia|].
  pose proof (length_newline_indent level
                (encode level v (encode_items level items rest))).
  pose proof (Hv level (encode_items level items rest)). lia.
Qed.

Lemma length_encode_members (level : nat) (members : list (string * Value))
    (rest : string) :
  Forall (fun kv => fits (snd kv)) members ->
  (size_members members + String.length rest
   <= String.length (encode_members level members rest))%nat.
Proof.
  induction 1 as [|[k v] members Hv _ IH];
    cbn [encode_members size_members String.length]; [lia|].
  set (tail := encode level v (encode_members level members rest)).
  pose proof (length_newline_indent level
                (encode_string k (String ":" (String " " tail)))).
  pose proof (length_encode_string k (String ":" (String " " tail))) as Hk.
  cbn [String.length] in Hk.
  pose proof (Hv level (encode_members level members rest)) as Hfit.
  cbn [snd] in Hfit. subst tail. lia.
Qed.

Lemma length_encode (v : Value) : fits v.
Proof.
  induction v as [s|items IH|members IH] using Value_nested_ind;
    intros level rest.
  - pose proof (length_encode_string s rest). simpl size.
    change (encode level (VStr s) rest) with (encode_string s rest). lia.
  - rewrite size_list. destruct items as [|v0 items]; [simpl; lia|].
    rewrite encode_list_cons.
    apply Forall_cons_iff in IH as [IH0 IH].
    set (close := newline_indent level (String "]" rest)).
    set (tail := encode_items (S level) items close).
    pose proof (length_newline_indent (S level) (encode (S level) v0 tail)).
    pose proof (IH0 (S level) tail).
    pose proof (length_encode_items (S level) items close IH).
    pose proof (length_newline_indent level (String "]" rest)).
    cbn [String.length size_items] in *. subst tail close. lia.
  - rewrite size_dict. destruct members as [|[k0 v0] members]; [simpl; lia|].
    rewrite encode_dict_cons.
    apply Forall_cons_iff in IH as [IH0 IH].
    set (close := newline_indent level (String "}" rest)).
    set (tail := encode_members (S level) members close).
    set (val := encode (S level) v0 tail).
    pose proof (length_newline_indent (S level)
                  (encode_string k0 (String ":" (String " " val)))).
    pose proof (length_encode_string k0 (String ":" (String " " val))) as Hk.
    pose proof (IH0 (S level) tail).
    pose proof (length_encode_members (S level) members close IH).
    pose proof (length_newline_indent level (String "}" rest)).
    cbn [String.length snd size_members] in *. subst val tail close. lia.
Qed.

(** [json.loads(json.dumps(v, indent=2, ensure_ascii=False)) == v] *)
Lemma loads_dumps (v : Value) : Wf v -> loads (dumps v) = Some v.
Proof.
  intros Hwf. unfold loads, dumps.
  rewrite skip_ws_opens by apply encode_opens.
  rewrite (parse_encode v Hwf).
  - reflexivity.
  - pose proof (length_encode v 0%nat EmptyString). simpl in *. lia.
Qed.

End JsonFacts.

(** ** The corpus store *)
Section StoreFacts.

Import Corpus.

Lemma traverse_map {A B} (enc : A -> B) (dec : B -> option A) (l : list A) :
  (forall a, dec (enc a) = Some a) ->
  traverse dec (map enc l) = Some l.
Proof.
  intros H. induction l as [|a l IH]; simpl; [reflexivity|].
  now rewrite H, IH.
Qed.

Lemma as_strings (l : list string) :
  as_list as_str (strings_value l) = Some l.
Proof. apply traverse_map. reflexivity. Qed.

Lemma as_heading_value (h : Heading) : as_heading (heading_value h) = Some h.
Proof. destruct h as [[lv|] [tx|]]; reflexivity. Qed.

Lemma as_headings (l : list Heading) :
  as_list as_heading (VList (map heading_value l)) = Some l.
Proof. apply traverse_map, as_heading_value. Qed.

Lemma as_doc_value (d : Doc) : as_doc (doc_value d) = Some d.
Proof.
  destruct d as [[u|] [t|] [c|] [h|] [s|] [l|]];
    unfold as_doc, doc_value, item, field; cbn [app lookup String.eqb];
    cbn -[as_list strings_value];
    rewrite ?as_strings, ?as_headings; reflexivity.
Qed.

Lemma as_corpus_value (docs : list Doc) :
  as_corpus (corpus_value docs) = Some docs.
Proof. apply traverse_map, as_doc_value. Qed.

Lemma Wf_strings (l : list string) : Wf (strings_value l).
Proof.
  constructor. apply List.Forall_forall. intros v Hv.
  apply in_map_iff in Hv as [s [<- _]]. constructor.
Qed.

Lemma Wf_heading (h : Heading) : Wf (heading_value h).
Proof.
  destruct h as [[lv|] [tx|]]; constructor; simpl;
    repeat constructor; simpl; intuition discriminate.
Qed.

Lemma Wf_headings (l : list Heading) : Wf (VList (map heading_value l)).
Proof.
  constructor. apply List.Forall_forall. intros v Hv.
  apply in_map_iff in Hv as [h [<- _]]. apply Wf_heading.
Qed.

Lemma Wf_doc (d : Doc) : Wf (doc_value d).
Proof.
  destruct d as [[u|] [t|] [c|] [h|] [s|] [l|]];
    (constructor; cbn [doc_value item app map fst snd
                       url title content headings code_snippets links];
     [repeat constructor; simpl; intuition discriminate
     |repeat (apply List.Forall_cons;
              [cbn [snd]; auto using Wf_str, Wf_strings, Wf_headings|]);
      apply List.Forall_nil]).
Qed.

Lemma Wf_corpus (docs : list Doc) : Wf (corpus_value docs).
Proof.
  constructor. apply List.Forall_forall. intros v Hv.
  apply in_map_iff in Hv as [d [<- _]]. apply Wf_doc.
Qed.

End StoreFacts.

(** C9: for every corpus, saving it with save_to_json and then loading the
    file with load_docs gives the same records, with the same field values
    and in the same order, whatever the files held before; so for the
    default file name of both, capillary_docs.json. *)
Theorem save_then_load_identity (files : gmap string string)
    (scraped_data : list Doc) (filename : string) :
  Store.load_docs (Store.save_to_json files scraped_data filename) filename
  = Some scraped_data
  /\ Store.load_docs
       (Store.save_to_json files scraped_data "capillary_docs.json")
       "capillary_docs.json"
     = Some scraped_data.
Proof.
  assert (H : forall name,
    Store.load_docs (Store.save_to_json files scraped_data name) name
    = Some scraped_data).
  { intros name. unfold Store.load_docs, Store.save_to_json.
    rewrite lookup_insert_eq.
    rewrite (loads_dumps _ (Wf_corpus scraped_data)).
    apply as_corpus_value. }
  split; apply H.
Qed.

(** The text written for a corpus of one page. *)
Example saved_text :
  Store.save_to_json ∅ [install_page] "docs.json" !! "docs.json"
  = Some (Json.dumps (Corpus.corpus_value [install_page]))
  /\ Store.load_docs (Store.save_to_json ∅ [install_page] "docs.json")
       "docs.json"
     = Some [install_page].
Proof. split; [apply lookup_insert_eq | vm_compute; reflexivity]. Qed.

(** * Further properties of the code *)

(** ** Strings *)
Section StringFacts.

Lemma append_nil_l (a : string) : "" ++ a = a.
Proof. reflexivity. Qed.

Lemma append_cons (x : ascii) (a b : string) :
  String x a ++ b = String x (a ++ b).
Proof. reflexivity. Qed.

Lemma append_assoc (a b c : string) : (a ++ b) ++ c = a ++ b ++ c.
Proof.
  induction a as [|x a IH]; [reflexivity|].
  now rewrite !append_cons, IH.
Qed.

Lemma append_empty_r (a : string) : a ++ "" = a.
Proof.
  induction a as [|x a IH]; [reflexivity|]. now rewrite append_cons, IH.
Qed.

Lemma lower_char_idem (c : ascii) :
  Py.lower_char (Py.lower_char c) = Py.lower_char c.
Proof. destruct c as [[] [] [] [] [] [] [] []]; reflexivity. Qed.

Lemma lower_idem (s : string) : Py.lower (Py.lower s) = Py.lower s.
Proof.
  induction s as [|c s IH]; simpl; [reflexivity|].
  now rewrite lower_char_idem, IH.
Qed.

Lemma count_from_nonneg (sub : string) (s : string) :
  forall skip : nat, 0 <= Py.count_from sub skip s.
Proof.
  induction s as [|c s IH]; intros skip; simpl; [lia|].
  destruct skip as [|k]; [|apply IH].
  match goal with |- context [if ?b then _ else _] => destruct b end.
  - specialize (IH (String.length sub - 1)%nat). lia.
  - apply IH.
Qed.

Lemma count_nonneg (s sub : string) : 0 <= Py.count s sub.
Proof.
  unfold Py.count, Py.len. destruct sub; [lia | apply count_from_nonneg].
Qed.

(** [String.prefix], as a decomposition. *)
Lemma prefix_app (sub s : string) :
  String.prefix sub s = true <-> exists post, s = sub ++ post.
Proof.
  revert s. induction sub as [|a sub IH]; intros s.
  - split; [intros _; now exists s | now destruct s].
  - destruct s as [|b s]; simpl.
    + split; [discriminate | intros [post H]; discriminate].
    + destruct (ascii_dec a b) as [->|Hne].
      * rewrite IH. split; intros [post H]; exists post;
          rewrite append_cons in *; congruence.
      * split; [discriminate|].
        intros [post H]. rewrite append_cons in H. congruence.
Qed.

(** [sub in s], as a decomposition. *)
Lemma contains_app (sub s : string) :
  Py.contains sub s = true <-> exists pre post, s = pre ++ sub ++ post.
Proof.
  induction s as [|c s IH].
  - change (Py.contains sub "") with (String.prefix sub "" || false).
    rewrite orb_false_r, prefix_app. split.
    + intros [post H]. now exists "", post.
    + intros [[|x pre] [post H]]; [now exists post | discriminate].
  - change (Py.contains sub (String c s))
      with (String.prefix sub (String c s) || Py.contains sub s).
    rewrite orb_true_iff, IH, prefix_app. split.
    + intros [[post H]|[pre [post H]]].
      * now exists "", post.
      * exists (String c pre), post. now rewrite append_cons, H.
    + intros [[|x pre] [post H]].
      * left. now exists post.
      * right. exists pre, post. rewrite append_cons in H. congruence.
Qed.

Lemma contains_trans (a b c : string) :
  Py.contains a b = true -> Py.contains b c = true -> Py.contains a c = true.
Proof.
  rewrite !contains_app. intros (p1 & q1 & ->) (p2 & q2 & ->).
  exists (p2 ++ p1), (q1 ++ q2). now rewrite !append_assoc.
Qed.

(** A string that starts with a non-blank character starts with its first
    term; and every term is a stretch of the string. *)
Lemma split_stretch (s : string) :
  (forall w, In w (Py.split s) -> exists pre post, s = pre ++ w ++ post)
  /\ (forall c t, s = String c t -> Py.isspace c = false ->
        exists w ws post, Py.split s = w :: ws /\ s = w ++ post).
Proof.
  induction s as [|c s [IHin IHhd]].
  - split; [intros w [] | discriminate].
  - assert (Hlift : forall w, In w (Py.split s) ->
                      exists pre post, String c s = pre ++ w ++ post).
    { intros w Hw. destruct (IHin w Hw) as (pre & post & ->).
      now exists (String c pre), post. }
    simpl. destruct (Py.isspace c) eqn:Ec.
    + split; [exact Hlift | intros c0 t [= <- <-]; congruence].
    + destruct s as [|c' s'].
      * split.
        -- intros w [<-|[]]. now exists "", "".
        -- intros c0 t _ _. now exists (String c ""), [], "".
      * destruct (Py.isspace c') eqn:Ec'.
        -- split.
           ++ intros w [<-|Hw]; [now exists "", (String c' s') | now apply Hlift].
           ++ intros c0 t _ _. eexists _, _, (String c' s'). split; reflexivity.
        -- destruct (IHhd c' s' eq_refl Ec') as (w0 & ws & post & Hs & Hw0).
           rewrite Hs in *. split.
           ++ intros w [<-|Hw].
              ** exists "", post.
                 now rewrite append_nil_l, append_cons, <- Hw0.
              ** apply Hlift. now right.
           ++ intros c0 t _ _. exists (String c w0), ws, post.
              split; [reflexivity | now rewrite append_cons, <- Hw0].
Qed.

(** Every query term is a substring of the query. *)
Lemma split_contains (s w : string) :
  In w (Py.split s) -> Py.contains w s = true.
Proof.
  intros Hw. apply contains_app. now apply (proj1 (split_stretch s)).
Qed.

End StringFacts.

(** ** More on the search index *)
Section MoreSearchFacts.

Lemma sum_nonneg (l : list Z) : Forall (fun z => 0 <= z) l -> 0 <= Formula.sum l.
Proof. induction 1 as [|z l Hz _ IH]; simpl; lia. Qed.

Lemma matching_nonneg (terms : list string) (s : string) :
  0 <= Formula.matching terms s.
Proof. unfold Formula.matching. lia. Qed.

Lemma b2z_nonneg (b : bool) : 0 <= Formula.b2z b.
Proof. destruct b; simpl; lia. Qed.

Lemma count_sum_nonneg (content : string) (terms : list string) :
  0 <= Formula.sum (map (Py.count content) terms).
Proof.
  apply sum_nonneg, List.Forall_forall. intros z Hz.
  apply in_map_iff in Hz as [t [<- _]]. apply count_nonneg.
Qed.

Lemma heading_sum_nonneg (q : string) (terms : list string)
    (hs : list Heading) :
  0 <= Formula.sum
         (map (fun h =>
                 let heading_text := Py.lower (Py.get (text h) "") in
                 8 * Formula.b2z (Py.contains q heading_text)
                 + 3 * Formula.matching terms heading_text) hs).
Proof.
  apply sum_nonneg, List.Forall_forall. intros z Hz.
  apply in_map_iff in Hz as [h [<- _]]. cbv zeta.
  pose proof (b2z_nonneg (Py.contains q (Py.lower (Py.get (text h) "")))).
  pose proof (matching_nonneg terms (Py.lower (Py.get (text h) ""))). lia.
Qed.

(** The title part of the score is a lower bound of the score. *)
Lemma score_title_part (query : string) (d : Doc) :
  15 * Formula.matching (Py.split (Py.lower query))
         (Py.lower (Py.get (title d) ""))
  + 20 * Formula.b2z (Py.contains (Py.lower query)
                        (Py.lower (Py.get (title d) "")))
  <= DocBot.score_of query d.
Proof.
  rewrite score_doc_additive.
  unfold Formula.score_with_repeats, Formula.additive.
  pose proof (b2z_nonneg (Py.contains (Py.lower query)
                            (Py.lower (Py.get (content d) "")))).
  pose proof (count_sum_nonneg (Py.lower (Py.get (content d) ""))
                (List.filter (fun t => 2 <? Py.len t)
                             (Py.split (Py.lower query)))).
  pose proof (heading_sum_nonneg (Py.lower query) (Py.split (Py.lower query))
                (Py.get (headings d) [])).
  cbv zeta in *. lia.
Qed.

Lemma score_nonneg (query : string) (d : Doc) : 0 <= DocBot.score_of query d.
Proof.
  pose proof (score_title_part query d).
  pose proof (matching_nonneg (Py.split (Py.lower query))
                (Py.lower (Py.get (title d) ""))).
  pose proof (b2z_nonneg (Py.contains (Py.lower query)
                            (Py.lower (Py.get (title d) "")))). lia.
Qed.

Lemma matching_all (terms : list string) (s : string) :
  Forall (fun t => Py.contains t s = true) terms ->
  Formula.matching terms s = Z.of_nat (List.length terms).
Proof.
  intros H. unfold Formula.matching. f_equal. f_equal.
  induction H as [|t terms Ht _ IH]; simpl; [reflexivity|].
  now rewrite Ht, IH.
Qed.

End MoreSearchFacts.

(** X1: the score of a record is never negative, so the test [score > 0]
    drops exactly the records of score 0: asked for as many results as the
    corpus has records, the search returns the records of non-zero score
    and no other. *)
Theorem search_returns_nonzero_scores (docs : list Doc) (query : string)
    (d : Doc) :
  0 <= DocBot.score_of query d
  /\ (In d (DocBot.search_docs docs query (Z.of_nat (List.length docs)))
      <-> In d docs /\ DocBot.score_of query d <> 0).
Proof.
  split; [apply score_nonneg|].
  rewrite search_docs_rank. unfold Py.slice_to.
  destruct (0 <=? Z.of_nat (List.length docs)) eqn:E;
    [|apply Z.leb_gt in E; lia].
  rewrite Nat2Z.id, firstn_all2.
  2:{ rewrite <- (Permutation_length (sort_desc_perm _ _)).
      apply filter_length_le. }
  pose proof (score_nonneg query d). split.
  - intros Hin.
    apply (Permutation_in _ (Permutation_sym (sort_desc_perm _ _))) in Hin.
    apply filter_In in Hin as [Hin Hpos]. apply Z.ltb_lt in Hpos.
    split; [exact Hin | lia].
  - intros [Hin Hnz].
    apply (Permutation_in _ (sort_desc_perm _ _)).
    apply filter_In. split; [exact Hin | apply Z.ltb_lt; lia].
Qed.

(** X2: the first [n] results of a search for [m] results are the search
    for min(n, m) results; so a search for fewer results returns a prefix
    of the search for more, and a search for 0 results returns none. *)
Theorem search_docs_prefix (docs : list Doc) (query : string) (n m : nat) :
  firstn n (DocBot.search_docs docs query (Z.of_nat m))
  = DocBot.search_docs docs query (Z.of_nat (Nat.min n m))
  /\ DocBot.search_docs docs query 0 = [].
Proof.
  rewrite !search_docs_rank. unfold Py.slice_to.
  destruct (0 <=? Z.of_nat m) eqn:E1; [|apply Z.leb_gt in E1; lia].
  destruct (0 <=? Z.of_nat (Nat.min n m)) eqn:E2; [|apply Z.leb_gt in E2; lia].
  rewrite !Nat2Z.id. split; [apply firstn_firstn | reflexivity].
Qed.

(** X3: the case of the query does not matter: the lower-cased query gets
    every record the same score and the search the same results. *)
Theorem search_ignores_query_case (docs : list Doc) (query : string)
    (max_results : Z) (d : Doc) :
  DocBot.score_of (Py.lower query) d = DocBot.score_of query d
  /\ DocBot.search_docs docs (Py.lower query) max_results
     = DocBot.search_docs docs query max_results.
Proof.
  split.
  - unfold DocBot.score_of. now rewrite lower_idem.
  - unfold DocBot.search_docs, DocBot.ranked. now rewrite lower_idem.
Qed.

(** X4: a record whose title contains the full query, whatever the case,
    scores at least 20 plus 15 for each term of the query, every term being
    a substring of the query and so of the title; with a query that is not
    blank this is at least 35, and the record is a hit. *)
Theorem title_match_scores (query : string) (d : Doc) :
  Py.split (Py.lower query) <> [] ->
  Py.contains (Py.lower query) (Py.lower (Py.get (title d) "")) = true ->
  20 + 15 * Z.of_nat (List.length (Py.split (Py.lower query)))
  <= DocBot.score_of query d
  /\ 35 <= DocBot.score_of query d.
Proof.
  intros Hterms Htitle.
  pose proof (score_title_part query d) as Hlow.
  rewrite Htitle, matching_all in Hlow.
  2:{ apply List.Forall_forall. intros t Ht.
      apply contains_trans with (Py.lower query); [|exact Htitle].
      now apply split_contains. }
  simpl Formula.b2z in Hlow.
  destruct (Py.split (Py.lower query)) as [|t terms]; [congruence|].
  simpl List.length in *. lia.
Qed.

Lemma title_match_scores_witness :
  20 + 15 * Z.of_nat (List.length (Py.split (Py.lower "Install")))
  <= DocBot.score_of "Install" install_page
  /\ 35 <= DocBot.score_of "Install" install_page.
Proof.
  apply title_match_scores.
  - vm_compute. discriminate.
  - vm_compute. reflexivity.
Defined.

(** ** More on the response composer and the chat *)
Section MoreComposerFacts.

Lemma search_docs_length_le (docs : list Doc) (query : string) (n : nat) :
  (List.length (DocBot.search_docs docs query (Z.of_nat n)) <= n)%nat.
Proof.
  rewrite search_docs_positions, length_map, positions_length.
  apply Nat.le_min_l.
Qed.

(** The apology is the answer to an empty list of records only. *)
Lemma generate_response_apology (query : string) (relevant_docs : list Doc) :
  Composer.generate_response query relevant_docs = Composer.apology
  <-> relevant_docs = [].
Proof.
  split; [|intros ->; reflexivity].
  destruct relevant_docs as [|top_doc others]; [reflexivity|].
  intros H. exfalso.
  destruct (String.eqb (Py.get (content top_doc) "") "") eqn:E.
  - unfold Composer.generate_response in H. rewrite E in H.
    vm_compute in H. discriminate.
  - apply String.eqb_neq in E. rewrite (response_shape _ _ _ E) in H.
    unfold Chain.header, Composer.apology in H. simpl in H. discriminate.
Qed.

(** Characters of a string. *)
Fixpoint has_char (c : ascii) (s : string) : bool :=
  match s with
  | EmptyString => false
  | String a s' => Ascii.eqb a c || has_char c s'
  end.

Lemma contains_char (c : ascii) (s : string) :
  Py.contains (String c EmptyString) s = has_char c s.
Proof.
  induction s as [|a s IH]; [reflexivity|].
  change (Py.contains (String c "") (String a s))
    with (String.prefix (String c "") (String a s)
          || Py.contains (String c "") s).
  rewrite IH. simpl. f_equal.
  destruct (ascii_dec c a) as [->|Hne].
  - rewrite Ascii.eqb_refl. now destruct s.
  - symmetry. apply Ascii.eqb_neq. congruence.
Qed.

Lemma has_char_app (c : ascii) (a b : string) :
  has_char c (a ++ b) = has_char c a || has_char c b.
Proof.
  induction a as [|x a IH]; [reflexivity|].
  rewrite append_cons. simpl. now rewrite IH, orb_assoc.
Qed.

Lemma replace_no_old (old : ascii) (new s : string) :
  has_char old new = false -> has_char old (Py.replace old new s) = false.
Proof.
  intros Hnew. induction s as [|a s IH]; simpl; [reflexivity|].
  destruct (Ascii.eqb a old) eqn:E.
  - now rewrite has_char_app, Hnew, IH.
  - simpl. now rewrite E, IH.
Qed.

(** The pieces of a split have no separator, and no character the string
    has not. *)
Lemma split_on_pieces (sep : ascii) (s w : string) :
  In w (Py.split_on sep s) ->
  has_char sep w = false
  /\ forall c, has_char c s = false -> has_char c w = false.
Proof.
  revert w. induction s as [|a s IH]; simpl; intros w Hw.
  - destruct Hw as [<-|[]]. auto.
  - destruct (Ascii.eqb a sep) eqn:E.
    + destruct Hw as [<-|Hw]; [auto|].
      destruct (IH w Hw) as [H1 H2]. split; [exact H1|].
      intros c Hc. apply orb_false_iff in Hc as [_ Hc]. auto.
    + destruct (Py.split_on sep s) as [|w0 ws].
      * destruct Hw as [<-|[]]. simpl. rewrite E. split; [reflexivity|].
        intros c Hc. apply orb_false_iff in Hc as [-> _]. reflexivity.
      * destruct (IH w0 (or_introl eq_refl)) as [H1 H2].
        destruct Hw as [<-|Hw].
        -- simpl. rewrite E, H1. split; [reflexivity|].
           intros c Hc. apply orb_false_iff in Hc as [-> Hc]. simpl. auto.
        -- destruct (IH w (or_intror Hw)) as [H3 H4]. split; [exact H3|].
           intros c Hc. apply orb_false_iff in Hc as [_ Hc]. auto.
Qed.

Lemma lstrip_chars (c : ascii) (s : string) :
  has_char c s = false -> has_char c (Py.lstrip s) = false.
Proof.
  induction s as [|a s IH]; simpl; [reflexivity|]. intros H.
  destruct (Py.isspace a); [|exact H].
  apply orb_false_iff in H as [_ H]. auto.
Qed.

Lemma rstrip_chars (c : ascii) (s : string) :
  has_char c s = false -> has_char c (Py.rstrip s) = false.
Proof.
  induction s as [|a s IH]; simpl; [reflexivity|]. intros H.
  apply orb_false_iff in H as [Ha H]. specialize (IH H).
  destruct (Py.rstrip s) as [|b r].
  - destruct (Py.isspace a); simpl; [reflexivity | now rewrite Ha].
  - simpl in *. now rewrite Ha, IH.
Qed.

Lemma strip_chars (c : ascii) (s : string) :
  has_char c s = false -> has_char c (Py.strip s) = false.
Proof. intros H. now apply rstrip_chars, lstrip_chars. Qed.

(** No blank character in front. *)
Definition starts_clean (s : string) : Prop :=
  match s with
  | EmptyString => True
  | String c _ => Py.isspace c = false
  end.

Lemma lstrip_starts_clean (s : string) : starts_clean (Py.lstrip s).
Proof.
  induction s as [|a s IH]; simpl; [exact I|].
  destruct (Py.isspace a) eqn:E; [exact IH | exact E].
Qed.

Lemma lstrip_fixed (s : string) : starts_clean s -> Py.lstrip s = s.
Proof. destruct s as [|a s]; simpl; [reflexivity | now intros ->]. Qed.

Lemma rstrip_starts_clean (s : string) :
  starts_clean s -> starts_clean (Py.rstrip s).
Proof.
  destruct s as [|a s]; simpl; [auto|]. intros Ha.
  destruct (Py.rstrip s); [rewrite Ha|]; exact Ha.
Qed.

Lemma rstrip_idem (s : string) : Py.rstrip (Py.rstrip s) = Py.rstrip s.
Proof.
  induction s as [|a s IH]; simpl; [reflexivity|].
  destruct (Py.rstrip s) as [|b r] eqn:E.
  - destruct (Py.isspace a) eqn:Ea; simpl; [reflexivity | now rewrite Ea].
  - simpl in *. now rewrite IH.
Qed.

Lemma strip_idem (s : string) : Py.strip (Py.strip s) = Py.strip s.
Proof.
  unfold Py.strip.
  rewrite (lstrip_fixed (Py.rstrip (Py.lstrip s))).
  - apply rstrip_idem.
  - apply rstrip_starts_clean, lstrip_starts_clean.
Qed.

End MoreComposerFacts.

(** X5: the sources of a chat answer are the search hits for the message,
    in rank order, each with its title and URL ('Untitled' and '#' where
    the record has none), at most 3; and the answer is the apology exactly
    when there is no source. *)
Theorem chat_sources (docs_data : list Doc) (message : string) :
  snd (Composer.chat docs_data message)
  = map (fun d => (Py.get (title d) "Untitled", Py.get (url d) "#"))
        (DocBot.search_docs docs_data message 3)
  /\ (List.length (snd (Composer.chat docs_data message)) <= 3)%nat
  /\ (fst (Composer.chat docs_data message) = Composer.apology
      <-> snd (Composer.chat docs_data message) = []).
Proof.
  unfold Composer.chat. cbn [fst snd]. split; [reflexivity|]. split.
  - rewrite length_map. apply (search_docs_length_le docs_data message 3).
  - rewrite generate_response_apology.
    destruct (DocBot.search_docs docs_data message 3); simpl;
      split; congruence.
Qed.

(** X6: every sentence the response composer works with is trimmed, longer
    than 20 characters, and holds neither a period nor a line feed. *)
Theorem sentences_are_clean (content s : string) :
  In s (Composer.sentences_of content) ->
  20 < Py.len s
  /\ Py.strip s = s
  /\ Py.contains "." s = false
  /\ Py.contains NL s = false.
Proof.
  unfold Composer.sentences_of. intros Hs.
  apply in_map_iff in Hs as [s0 [<- Hs0]].
  apply filter_In in Hs0 as [Hs0 Hlen]. apply Z.ltb_lt in Hlen.
  apply split_on_pieces in Hs0 as [Hdot Hchars].
  split; [exact Hlen|]. split; [apply strip_idem|].
  unfold NL. rewrite !contains_char. split.
  - now apply strip_chars.
  - apply strip_chars, Hchars, replace_no_old. reflexivity.
Qed.

Lemma sentences_are_clean_witness :
  20 < Py.len "Invoices are sent on the first day of every month"
  /\ Py.strip "Invoices are sent on the first day of every month"
     = "Invoices are sent on the first day of every month"
  /\ Py.contains "." "Invoices are sent on the first day of every month"
     = false
  /\ Py.contains NL "Invoices are sent on the first day of every month"
     = false.
Proof.
  apply (sentences_are_clean
           "Invoices are sent on the first day of every month. Short one.").
  vm_compute. now left.
Defined.

(** ** More on the crawler *)
Section MoreCrawlFacts.

Variable base_url : string.
Variable urljoin : string -> string -> option string.
Variable netloc : string -> string.
Variable session_get : list string -> string -> Response.

Abbreviation is_valid_url := (CapillaryDocScraper.is_valid_url base_url netloc).
Abbreviation get_links :=
  (CapillaryDocScraper.get_links base_url urljoin netloc).
Abbreviation scrape_page :=
  (CapillaryDocScraper.scrape_page base_url urljoin netloc session_get).
Abbreviation loop_body :=
  (CapillaryDocScraper.loop_body base_url urljoin netloc session_get).
Abbreviation loop :=
  (CapillaryDocScraper.loop base_url urljoin netloc session_get).

Lemma extract_content_url (soup : Soup) (u : string) :
  url (CapillaryDocScraper.extract_content soup u) = Some u.
Proof.
  unfold CapillaryDocScraper.extract_content.
  destruct (find_main soup), (find_article soup), (find_div_content soup);
    reflexivity.
Qed.

Lemma strip_from_no (c : ascii) (s : string) :
  has_char c (Normal.strip_from c s) = false.
Proof.
  induction s as [|a s IH]; simpl; [reflexivity|].
  destruct (Ascii.eqb a c) eqn:E; simpl; [reflexivity | now rewrite E, IH].
Qed.

Lemma strip_from_chars (c d : ascii) (s : string) :
  has_char d s = false -> has_char d (Normal.strip_from c s) = false.
Proof.
  induction s as [|a s IH]; simpl; [reflexivity|]. intros H.
  apply orb_false_iff in H as [Ha H].
  destruct (Ascii.eqb a c); simpl; [reflexivity | now rewrite Ha, IH].
Qed.

Lemma clean_chars (s : string) :
  Py.contains "#" (CapillaryDocScraper.clean s) = false
  /\ Py.contains "?" (CapillaryDocScraper.clean s) = false.
Proof.
  rewrite clean_normalize, !contains_char. unfold Normal.normalize. split.
  - apply strip_from_chars, strip_from_no.
  - apply strip_from_no.
Qed.

(** What [get_links] keeps. *)
Lemma get_links_kept (self : Scraper) (soup : Soup) (current_url : string)
    (found : list string) :
  get_links self soup current_url = Some found ->
  Forall (fun u => (exists absolute_url, u = CapillaryDocScraper.clean absolute_url)
                   /\ is_valid_url u = true
                   /\ u ∉ visited_urls self) found.
Proof.
  rewrite get_links_resolved.
  destruct (traverse (urljoin current_url) (find_all_a soup)) as [resolved|];
    [|discriminate].
  intros [= <-]. apply List.Forall_forall. intros u Hu.
  apply filter_In in Hu as [Hu Hkeep]. apply andb_true_iff in Hkeep as [Hv Hn].
  apply in_map_iff in Hu as [a [<- _]].
  split; [now exists a|]. split; [exact Hv|].
  now apply bool_decide_eq_true in Hn.
Qed.

(** The links [scrape_page] returns are on the domain and not visited, the
    page itself included. *)
Lemma scrape_page_links (self : Scraper) (url : string) :
  Forall (fun l => is_valid_url l = true
                   /\ l ∉ visited_urls (snd (scrape_page self url)))
         (links_of (fst (scrape_page self url))).
Proof.
  unfold CapillaryDocScraper.scrape_page.
  destruct (bool_decide (url ∈ visited_urls self)); [constructor|].
  destruct (session_get _ url) as [|soup]; [constructor|]. cbv zeta.
  destruct (CapillaryDocScraper.get_links _ _ _ _ _ _) as [found|] eqn:E;
    [|constructor].
  apply get_links_kept in E. simpl in *.
  eapply List.Forall_impl; [|exact E]. intros l (_ & Hv & Hn). auto.
Qed.

Lemma scrape_page_visits (self : Scraper) (url : string) (soup : Soup) :
  url ∉ visited_urls self ->
  session_get (requested self) url = Parsed soup ->
  url ∈ visited_urls (snd (scrape_page self url)).
Proof.
  intros Hnew Hget.
  rewrite scrape_page_state, bool_decide_eq_false_2, Hget by exact Hnew.
  simpl. set_solver.
Qed.

(** One iteration, by the head of the frontier. *)
Lemma loop_body_step (c : Crawl) :
  (urls_to_visit c = [] /\ loop_body c = c)
  \/ (exists url rest,
        urls_to_visit c = url :: rest
        /\ (url ∈ visited_urls (scraper c))
        /\ loop_body c = mkCrawl (scraper c) rest (pages_scraped c))
  \/ (exists url rest,
        urls_to_visit c = url :: rest
        /\ (url ∉ visited_urls (scraper c))
        /\ scraper (loop_body c) = snd (scrape_page (scraper c) url)
        /\ urls_to_visit (loop_body c)
           = (rest ++ links_of (fst (scrape_page (scraper c) url)))%list
        /\ pages_scraped (loop_body c) = pages_scraped c + 1).
Proof.
  destruct (urls_to_visit c) as [|url rest] eqn:Hq.
  - left. split; [reflexivity|].
    unfold CapillaryDocScraper.loop_body. now rewrite Hq.
  - destruct (decide (url ∈ visited_urls (scraper c))) as [Hvis|Hnew].
    + right. left. exists url, rest. repeat split; [exact Hvis|].
      now apply loop_body_skip with url.
    + right. right. exists url, rest.
      rewrite (loop_body_new _ _ _ _ c url rest Hq Hnew). simpl.
      repeat split; [exact Hnew|].
      destruct (fst (scrape_page (scraper c) url)) as [|[|l ls]]; simpl;
        try reflexivity; now rewrite app_nil_r.
Qed.

(** *** What a crawl keeps *)

(** The scraper [s] comes from [s0] by visiting more, storing more and
    requesting more. *)
Definition extends (s0 s : Scraper) : Prop :=
  visited_urls s0 ⊆ visited_urls s
  /\ (exists new, scraped_data s = (scraped_data s0 ++ new)%list)
  /\ (exists more, requests s = (requests s0 ++ more)%list).

Lemma extends_refl (s : Scraper) : extends s s.
Proof.
  split; [set_solver|].
  split; exists []; now rewrite app_nil_r.
Qed.

Lemma extends_trans (s0 s1 s2 : Scraper) :
  extends s0 s1 -> extends s1 s2 -> extends s0 s2.
Proof.
  intros (Hv1 & [n1 Hd1] & [m1 Hr1]) (Hv2 & [n2 Hd2] & [m2 Hr2]).
  split; [now transitivity (visited_urls s1)|]. split.
  - exists (n1 ++ n2)%list. now rewrite Hd2, Hd1, app_assoc.
  - exists (m1 ++ m2)%list. now rewrite Hr2, Hr1, app_assoc.
Qed.

Lemma scrape_page_extends (self : Scraper) (url : string) :
  extends self (snd (scrape_page self url)).
Proof.
  rewrite scrape_page_state.
  destruct (bool_decide _); [apply extends_refl|].
  destruct (session_get _ url) as [|soup]; simpl.
  - split; [set_solver|]. split; [exists []; now rewrite app_nil_r|].
    now eexists.
  - split; [simpl; set_solver|]. split; simpl; [|now eexists].
    destruct (negb _); [now eexists | exists []; now rewrite app_nil_r].
Qed.

Lemma loop_body_extends (c : Crawl) :
  extends (scraper c) (scraper (loop_body c)).
Proof.
  destruct (loop_body_step c)
    as [[_ ->]|[(u & r & _ & _ & ->)|(u & r & _ & _ & -> & _)]];
    auto using extends_refl, scrape_page_extends.
Qed.

(** *** Counting requests and records *)

Lemma scrape_page_counts (self : Scraper) (url : string) :
  url ∉ visited_urls self ->
  requested (snd (scrape_page self url)) = (requested self ++ [url])%list
  /\ (List.length (scraped_data (snd (scrape_page self url)))
      <= S (List.length (scraped_data self)))%nat.
Proof.
  intros Hnew. rewrite scrape_page_state, bool_decide_eq_false_2 by exact Hnew.
  unfold requested.
  destruct (session_get _ url) as [|soup]; simpl; rewrite map_app; simpl;
    (split; [reflexivity|]); [lia|].
  destruct (negb _); [rewrite length_app; simpl|]; lia.
Qed.

(** The counter counts the requests, and bounds the records stored. *)
Definition counted (n0 r0 : Z) (c : Crawl) : Prop :=
  Z.of_nat (List.length (requests (scraper c))) = n0 + pages_scraped c
  /\ Z.of_nat (List.length (scraped_data (scraper c))) <= r0 + pages_scraped c
  /\ 0 <= pages_scraped c.

Lemma loop_body_counted (n0 r0 : Z) (c : Crawl) :
  counted n0 r0 c -> counted n0 r0 (loop_body c).
Proof.
  intros (Hreq & Hrec & Hpos).
  destruct (loop_body_step c)
    as [[_ ->]|[(u & r & _ & _ & ->)|(u & r & _ & Hnew & Hs & _ & Hp)]];
    [now split | now split |].
  destruct (scrape_page_counts (scraper c) u Hnew) as [Hr Hd].
  unfold counted. rewrite Hs, Hp.
  assert (Hlen : List.length (requests (snd (scrape_page (scraper c) u)))
                 = S (List.length (requests (scraper c)))).
  { unfold requested in Hr.
    rewrite <- (length_map fst), Hr, length_app, length_map. simpl. lia. }
  rewrite Hlen. repeat split; lia.
Qed.

(** *** The URLs of the records *)

(** No two records have the same URL, and the URL of every record is
    marked visited. *)
Definition records_distinct (s : Scraper) : Prop :=
  List.NoDup (map url (scraped_data s))
  /\ Forall (fun d => exists u, url d = Some u /\ u ∈ visited_urls s)
            (scraped_data s).

Lemma scrape_page_records_distinct (self : Scraper) (target : string) :
  records_distinct self -> records_distinct (snd (scrape_page self target)).
Proof.
  intros [Hnd Hvis]. rewrite scrape_page_state.
  destruct (bool_decide (target ∈ visited_urls self)) eqn:E; [now split|].
  apply bool_decide_eq_false in E.
  destruct (session_get _ target) as [|soup]; [now split|]. cbv zeta.
  assert (Hold : Forall (fun d => exists u, url d = Some u
                           /\ u ∈ {[target]} ∪ visited_urls self)
                        (scraped_data self)).
  { eapply List.Forall_impl; [|exact Hvis].
    intros d (u & Hu & Hin). exists u. split; [exact Hu | set_solver]. }
  destruct (negb _); split; simpl; try assumption.
  - rewrite map_app. apply List.NoDup_app; [exact Hnd | |].
    + simpl. repeat constructor. intros [].
    + intros o Ho [<-|[]]. rewrite extract_content_url in Ho.
      apply in_map_iff in Ho as (d & Hd & Hin).
      rewrite List.Forall_forall in Hvis.
      destruct (Hvis d Hin) as (u & Hu & Huv).
      rewrite Hu in Hd. injection Hd as ->. contradiction.
  - apply Forall_app. split; [exact Hold|].
    constructor; [|constructor].
    exists target. split; [apply extract_content_url | set_solver].
Qed.

Lemma loop_body_records_distinct (c : Crawl) :
  records_distinct (scraper c) -> records_distinct (scraper (loop_body c)).
Proof.
  intros H.
  destruct (loop_body_step c)
    as [[_ ->]|[(u & r & _ & _ & ->)|(u & r & _ & _ & -> & _)]];
    auto using scrape_page_records_distinct.
Qed.

(** *** The domain *)

(** Every URL in the frontier and every URL requested is on the domain of
    the base URL. *)
Definition on_domain (c : Crawl) : Prop :=
  Forall (fun u => is_valid_url u = true) (urls_to_visit c)
  /\ Forall (fun u => is_valid_url u = true) (requested (scraper c)).

Lemma loop_body_on_domain (c : Crawl) :
  on_domain c -> on_domain (loop_body c).
Proof.
  intros [Hq Hr].
  destruct (loop_body_step c)
    as [[_ ->]|[(u & r & Hc & _ & ->)|(u & r & Hc & Hnew & Hs & Hf & _)]].
  - now split.
  - rewrite Hc in Hq. apply Forall_cons_iff in Hq as [_ Hq]. now split.
  - rewrite Hc in Hq. apply Forall_cons_iff in Hq as [Hu Hq].
    unfold on_domain. rewrite Hs, Hf.
    rewrite (proj1 (scrape_page_counts (scraper c) u Hnew)). split.
    + apply Forall_app. split; [exact Hq|].
      eapply List.Forall_impl; [|apply scrape_page_links].
      now intros l [Hv _].
    + apply Forall_app. split; [exact Hr | now repeat constructor].
Qed.

Lemma loop_not_entered (fuel : nat) (max_pages : Z) (c : Crawl) :
  CapillaryDocScraper.loop_test max_pages c = false ->
  loop fuel max_pages c = Some c.
Proof. intros H. destruct fuel; simpl; now rewrite H. Qed.

End MoreCrawlFacts.

(** X7: the record [extract_content] builds has the page's URL, no links
    and the text of the first h1 as title, of the title tag when there is
    no h1, the empty string when there is neither; every code snippet it
    stores is longer than 10 characters; and a page without main, article
    and div.content root gives empty content, headings and snippets, the
    title still set. *)
Theorem extract_content_record (soup : Soup) (page_url : string) :
  let d := CapillaryDocScraper.extract_content soup page_url in
  url d = Some page_url
  /\ links d = Some []
  /\ title d = Some (match find_h1 soup with
                     | Some t => t
                     | None => Py.get (find_title soup) ""
                     end)
  /\ (exists snippets, code_snippets d = Some snippets
                       /\ Forall (fun s => 10 < Py.len s) snippets)
  /\ (find_main soup = None -> find_article soup = None ->
      find_div_content soup = None ->
      content d = Some "" /\ headings d = Some []
      /\ code_snippets d = Some []).
Proof.
  cbv zeta. unfold CapillaryDocScraper.extract_content.
  assert (Hlong : forall l : list string,
    Forall (fun s => 10 < Py.len s)
           (List.filter (fun snippet => 10 <? Py.len snippet) l)).
  { intros l. apply List.Forall_forall. intros s Hs.
    apply filter_In in Hs as [_ Hs]. now apply Z.ltb_lt. }
  destruct (find_main soup) as [m|]; [|destruct (find_article soup) as [a|];
    [|destruct (find_div_content soup) as [v|]]]; simpl;
    (repeat split; try (now destruct (find_h1 soup), (find_title soup));
     try discriminate; eauto).
Qed.

Lemma extract_content_record_witness :
  let d := CapillaryDocScraper.extract_content
             (mkSoup None (Some "Blank") None None None []) Site.blank in
  content d = Some "" /\ headings d = Some [] /\ code_snippets d = Some [].
Proof.
  apply (extract_content_record
           (mkSoup None (Some "Blank") None None None []) Site.blank);
    reflexivity.
Defined.

(** X8: every link [get_links] returns holds neither '#' nor '?', has the
    network location of the base URL and is not in the visited set. *)
Theorem get_links_clean (base_url : string)
    (urljoin : string -> string -> option string) (netloc : string -> string)
    (self : Scraper) (soup : Soup) (current_url : string)
    (found : list string) :
  CapillaryDocScraper.get_links base_url urljoin netloc self soup current_url
  = Some found ->
  Forall (fun u => Py.contains "#" u = false
                   /\ Py.contains "?" u = false
                   /\ netloc u = netloc base_url
                   /\ u ∉ visited_urls self) found.
Proof.
  intros Hfound. apply get_links_kept in Hfound.
  eapply List.Forall_impl; [|exact Hfound].
  intros u ([a ->] & Hv & Hn).
  destruct (clean_chars a) as [H1 H2].
  repeat split; try assumption.
  now apply String.eqb_eq.
Qed.

Lemma get_links_clean_witness :
  Forall (fun u => Py.contains "#" u = false
                   /\ Py.contains "?" u = false
                   /\ Site.netloc u = Site.netloc Site.base
                   /\ u ∉ visited_urls CapillaryDocScraper.init)
         ["https://docs.x.com/a"; "https://docs.x.com/b"].
Proof.
  apply (get_links_clean Site.base Site.urljoin Site.netloc
           CapillaryDocScraper.init
           (mkSoup None None None None None
              ["https://docs.x.com/a?x=1#frag"; "https://other.com/c";
               "https://docs.x.com/b#top"])
           Site.base).
  vm_compute. reflexivity.
Defined.

(** X9: [scrape_page] never returns the URL of the page it scraped, nor
    any URL that is in the visited set when it returns: a page that links
    to itself is not enqueued again. *)
Theorem scrape_page_fresh_links (base_url : string)
    (urljoin : string -> string -> option string) (netloc : string -> string)
    (session_get : list string -> string -> Response)
    (self : Scraper) (page_url : string) :
  let result :=
    CapillaryDocScraper.scrape_page base_url urljoin netloc session_get
      self page_url in
  ~ In page_url (links_of (fst result))
  /\ Forall (fun l => l ∉ visited_urls (snd result)) (links_of (fst result)).
Proof.
  cbv zeta. split.
  - unfold CapillaryDocScraper.scrape_page.
    destruct (bool_decide (page_url ∈ visited_urls self)); [intros []|].
    destruct (session_get _ page_url) as [|soup]; [intros []|]. cbv zeta.
    destruct (CapillaryDocScraper.get_links _ _ _ _ _ _) as [found|] eqn:E;
      [|intros []].
    apply get_links_kept in E. rewrite List.Forall_forall in E.
    simpl. intros Hin. destruct (E _ Hin) as (_ & _ & Hn).
    simpl in Hn. apply Hn, elem_of_union. left. now apply elem_of_singleton.
  - eapply List.Forall_impl; [|apply scrape_page_links].
    now intros l [_ Hn].
Qed.

(** X10: a run of the crawl loop is append-only: the scraper it ends with
    has every URL of the visited set it started with, its records start
    with the records it started with, and so do its requests. *)
Theorem crawl_append_only (base_url : string)
    (urljoin : string -> string -> option string) (netloc : string -> string)
    (session_get : list string -> string -> Response)
    (fuel : nat) (max_pages : Z) (c c' : Crawl) :
  CapillaryDocScraper.loop base_url urljoin netloc session_get
    fuel max_pages c = Some c' ->
  visited_urls (scraper c) ⊆ visited_urls (scraper c')
  /\ (exists new,
        scraped_data (scraper c') = (scraped_data (scraper c) ++ new)%list)
  /\ (exists more,
        requests (scraper c') = (requests (scraper c) ++ more)%list).
Proof.
  intros Hrun.
  apply (loop_invariant base_url urljoin netloc session_get
           (fun x => extends (scraper c) (scraper x))) in Hrun.
  - exact Hrun.
  - intros x Hx. eapply extends_trans; [exact Hx|].
    apply loop_body_extends.
  - apply extends_refl.
Qed.

Lemma crawl_append_only_witness :
  exists c' : Crawl,
    CapillaryDocScraper.loop Site.base Site.urljoin Site.netloc
      Site.broken_link 100 10 Site.after_home = Some c'
    /\ visited_urls (scraper Site.after_home) ⊆ visited_urls (scraper c')
    /\ (exists new,
          scraped_data (scraper c')
          = (scraped_data (scraper Site.after_home) ++ new)%list)
    /\ (exists more,
          requests (scraper c')
          = (requests (scraper Site.after_home) ++ more)%list).
Proof.
  eexists. split; [vm_compute; reflexivity|].
  apply (crawl_append_only Site.base Site.urljoin Site.netloc
           Site.broken_link 100 10 Site.after_home).
  vm_compute. reflexivity.
Defined.

(** X11: the counter of scrape_documentation counts the requests: when the
    crawl ends the scraper has made as many requests more as the counter
    says, has stored at most as many records more, and the counter is at
    most [max_pages], 0 when [max_pages] is negative. *)
Theorem crawl_request_count (base_url : string)
    (urljoin : string -> string -> option string) (netloc : string -> string)
    (session_get : list string -> string -> Response)
    (fuel : nat) (self : Scraper) (max_pages : Z) (c' : Crawl) :
  CapillaryDocScraper.scrape_documentation base_url urljoin netloc
    session_get fuel self max_pages = Some c' ->
  Z.of_nat (List.length (requests (scraper c')))
  = Z.of_nat (List.length (requests self)) + pages_scraped c'
  /\ Z.of_nat (List.length (scraped_data (scraper c')))
     <= Z.of_nat (List.length (scraped_data self)) + pages_scraped c'
  /\ 0 <= pages_scraped c' <= Z.max 0 max_pages.
Proof.
  unfold CapillaryDocScraper.scrape_documentation. intros Hrun.
  pose proof Hrun as Hcount.
  apply (loop_invariant base_url urljoin netloc session_get
           (counted (Z.of_nat (List.length (requests self)))
                    (Z.of_nat (List.length (scraped_data self))))
           (loop_body_counted base_url urljoin netloc session_get _ _))
    in Hcount; [|unfold counted; simpl; lia].
  destruct Hcount as (Hreq & Hrec & Hpos).
  repeat split; try assumption.
  destruct (Z.le_gt_cases 0 max_pages) as [Hmax|Hmax].
  - apply loop_budget in Hrun; [lia | simpl; lia].
  - rewrite loop_not_entered in Hrun.
    + injection Hrun as <-. simpl. lia.
    + unfold CapillaryDocScraper.loop_test. simpl. apply Z.ltb_ge. lia.
Qed.

Lemma crawl_request_count_witness :
  exists c' : Crawl,
    Site.crawl Site.broken_link 10 = Some c'
    /\ Z.of_nat (List.length (requests (scraper c'))) = 0 + pages_scraped c'
    /\ Z.of_nat (List.length (scraped_data (scraper c')))
       <= 0 + pages_scraped c'
    /\ 0 <= pages_scraped c' <= Z.max 0 10.
Proof.
  eexists. split; [vm_compute; reflexivity|].
  apply (crawl_request_count Site.base Site.urljoin Site.netloc
           Site.broken_link 100 CapillaryDocScraper.init 10).
  vm_compute. reflexivity.
Defined.

(** X12: in the corpus of one crawl by a fresh scraper no two records have
    the same URL, and the URL of every record is in the visited set. *)
Theorem crawl_records_distinct (base_url : string)
    (urljoin : string -> string -> option string) (netloc : string -> string)
    (session_get : list string -> string -> Response)
    (fuel : nat) (max_pages : Z) (c : Crawl) :
  CapillaryDocScraper.scrape_documentation base_url urljoin netloc
    session_get fuel CapillaryDocScraper.init max_pages = Some c ->
  List.NoDup (map url (scraped_data (scraper c)))
  /\ Forall (fun d => exists u, url d = Some u
                                /\ u ∈ visited_urls (scraper c))
            (scraped_data (scraper c)).
Proof.
  intros Hrun.
  apply (loop_invariant base_url urljoin netloc session_get
           (fun x => records_distinct (scraper x))
           (loop_body_records_distinct base_url urljoin netloc session_get))
    in Hrun; [exact Hrun|].
  split; simpl; constructor.
Qed.

Lemma crawl_records_distinct_witness :
  exists c : Crawl,
    Site.crawl Site.endless 5 = Some c
    /\ List.length (scraped_data (scraper c)) = 5%nat
    /\ List.NoDup (map url (scraped_data (scraper c)))
    /\ Forall (fun d => exists u, url d = Some u
                                  /\ u ∈ visited_urls (scraper c))
              (scraped_data (scraper c)).
Proof.
  eexists. split; [vm_compute; reflexivity|].
  split; [vm_compute; reflexivity|].
  apply (crawl_records_distinct Site.base Site.urljoin Site.netloc
           Site.endless 100 5).
  vm_compute. reflexivity.
Defined.

(** X13: a crawl by a fresh scraper never leaves the domain: every URL it
    requests, and every URL left in the frontier, has the network location
    of the base URL. *)
Theorem crawl_stays_on_domain (base_url : string)
    (urljoin : string -> string -> option string) (netloc : string -> string)
    (session_get : list string -> string -> Response)
    (fuel : nat) (max_pages : Z) (c : Crawl) :
  CapillaryDocScraper.scrape_documentation base_url urljoin netloc
    session_get fuel CapillaryDocScraper.init max_pages = Some c ->
  Forall (fun u => netloc u = netloc base_url) (requested (scraper c))
  /\ Forall (fun u => netloc u = netloc base_url) (urls_to_visit c).
Proof.
  intros Hrun.
  apply (loop_invariant base_url urljoin netloc session_get
           (on_domain base_url netloc)
           (loop_body_on_domain base_url urljoin netloc session_get))
    in Hrun.
  - destruct Hrun as [Hq Hr].
    split; (eapply List.Forall_impl; [|eassumption]);
      intros u Hu; now apply String.eqb_eq.
  - split; simpl; repeat constructor.
    unfold CapillaryDocScraper.is_valid_url. apply String.eqb_refl.
Qed.

(** A site whose home page links to another host as well. *)
Definition outward_site (history : list string) (page_url : string)
    : Response :=
  Site.page "Welcome to the documentation."
            ["https://other.com/"; "https://docs.x.com/a"].

Lemma crawl_stays_on_domain_witness :
  exists c : Crawl,
    Site.crawl outward_site 10 = Some c
    /\ requested (scraper c) = [Site.base; "https://docs.x.com/a"]
    /\ Forall (fun u => Site.netloc u = Site.netloc Site.base)
              (requested (scraper c))
    /\ Forall (fun u => Site.netloc u = Site.netloc Site.base)
              (urls_to_visit c).
Proof.
  eexists. split; [vm_compute; reflexivity|].
  split; [vm_compute; reflexivity|].
  apply (crawl_stays_on_domain Site.base Site.urljoin Site.netloc
           outward_site 100 10).
  vm_compute. reflexivity.
Defined.

(** ** More on the corpus store, the script and the bot *)
Section MoreStoreFacts.

(** Loading what was saved under the same name. *)
Lemma load_saved (files : gmap string string) (docs : list Doc)
    (name : string) :
  Store.load_docs (Store.save_to_json files docs name) name = Some docs.
Proof.
  unfold Store.load_docs, Store.save_to_json.
  rewrite lookup_insert_eq, (loads_dumps _ (Wf_corpus docs)).
  apply as_corpus_value.
Qed.

End MoreStoreFacts.

(** X14: when the documentation file does not exist the bot starts with an
    empty corpus: every search returns nothing, every chat message gets
    the apology without sources, and the status route reports 0 documents
    and no file. *)
Theorem missing_file_empty_bot (files : gmap string string)
    (docs_file query message : string) (max_results : Z) :
  files !! docs_file = None ->
  exists docs_data,
    Store.load_docs files docs_file = Some docs_data
    /\ DocBot.search_docs docs_data query max_results = []
    /\ Composer.chat docs_data message = (Composer.apology, [])
    /\ Api.status docs_data files docs_file = (0, false).
Proof.
  intros Hnone. exists []. unfold Store.load_docs, Api.status.
  rewrite Hnone. split; [reflexivity|]. split; [|split; reflexivity].
  rewrite search_docs_rank. cbn [List.filter Py.sort_desc].
  unfold Py.slice_to. destruct (0 <=? max_results); apply firstn_nil.
Qed.

Lemma missing_file_empty_bot_witness :
  exists docs_data,
    Store.load_docs ∅ "capillary_docs.json" = Some docs_data
    /\ DocBot.search_docs docs_data "install" 3 = []
    /\ Composer.chat docs_data "How do I install?" = (Composer.apology, [])
    /\ Api.status docs_data ∅ "capillary_docs.json" = (0, false).
Proof.
  apply (missing_file_empty_bot ∅ "capillary_docs.json" "install"
           "How do I install?" 3).
  reflexivity.
Defined.

(** X16: app.py run as a script and then the start of server.py: the bot
    loads the records the crawl scraped, in their order; they are at most
    50, each with non-empty content, no two with the same URL. *)
Theorem script_then_bot (urljoin : string -> string -> option string)
    (netloc : string -> string)
    (session_get : list string -> string -> Response)
    (fuel : nat) (files files' : gmap string string) :
  Script.main urljoin netloc session_get fuel files = Some files' ->
  exists c : Crawl,
    CapillaryDocScraper.scrape_documentation Script.base_url urljoin netloc
      session_get fuel CapillaryDocScraper.init 50 = Some c
    /\ Script.bot files' = Some (scraped_data (scraper c))
    /\ (List.length (scraped_data (scraper c)) <= 50)%nat
    /\ Forall has_content (scraped_data (scraper c))
    /\ List.NoDup (map url (scraped_data (scraper c))).
Proof.
  unfold Script.main, Script.bot.
  destruct (CapillaryDocScraper.scrape_documentation _ _ _ _ _ _ _)
    as [c|] eqn:Hrun; [|discriminate].
  intros [= <-]. exists c. split; [reflexivity|].
  split; [apply load_saved|]. repeat split.
  - pose proof Hrun as Hcount.
    unfold CapillaryDocScraper.scrape_documentation in Hcount.
    apply (loop_invariant Script.base_url urljoin netloc session_get
             (counted 0 0)
             (loop_body_counted Script.base_url urljoin netloc session_get
                0 0)) in Hcount; [|unfold counted; simpl; lia].
    destruct Hcount as (_ & Hrec & _).
    apply loop_budget in Hrun; [lia | simpl; lia].
  - apply (loop_invariant Script.base_url urljoin netloc session_get
             (fun x => Forall has_content (scraped_data (scraper x)))
             (loop_body_records Script.base_url urljoin netloc session_get))
      in Hrun; [exact Hrun | constructor].
  - apply (loop_invariant Script.base_url urljoin netloc session_get
             (fun x => records_distinct (scraper x))
             (loop_body_records_distinct Script.base_url urljoin netloc
                session_get)) in Hrun; [apply Hrun|].
    split; simpl; constructor.
Qed.

(** The documentation site with a home page that links nowhere. *)
Definition lone_home (history : list string) (page_url : string) : Response :=
  Site.page "Welcome to the documentation." [].

Lemma script_then_bot_witness :
  exists (files' : gmap string string) (c : Crawl),
    Script.main Site.urljoin Site.netloc lone_home 10 ∅ = Some files'
    /\ Script.bot files' = Some (scraped_data (scraper c))
    /\ (List.length (scraped_data (scraper c)) <= 50)%nat
    /\ Forall has_content (scraped_data (scraper c))
    /\ List.NoDup (map url (scraped_data (scraper c))).
Proof.
  destruct (Script.main Site.urljoin Site.netloc lone_home 10 ∅)
    as [files'|] eqn:Hmain; [|vm_compute in Hmain; discriminate].
  destruct (script_then_bot Site.urljoin Site.netloc lone_home 10 ∅ files'
              Hmain) as (c & _ & H).
  exists files', c. split; [reflexivity | exact H].
Defined.

(** ** The chat endpoint and its sessions *)
Section ApiFacts.

Variable docs_data : list Doc.
Variable env : Outside.
Variable sessions : gmap string Session.

(** The exchange a request with [msg] stores. *)
Definition exchange (msg : string) : Exchange :=
  mkExchange msg (fst (Composer.chat docs_data msg)) (now_stored env).

Definition add_exchange (msg : string) (s : Session) : Session :=
  mkSession (created_at s) (messages s ++ [exchange msg])%list.

(** The session a request opens. *)
Definition opened : gmap string Session :=
  <[uuid4 env := mkSession (now_created env) []]> sessions.

(** A value that is true in a condition and no string. *)
Definition no_text (v : Field) : Prop :=
  bool_of v = true /\ forall s, v <> J_string s.

(** What is true in a condition and neither list nor object is unknown
    unless it is a string among the keys. *)
Lemma unknown_string (id : string) :
  id <> "" ->
  Api.unknown (J_string id) sessions
  = Some (negb (bool_decide (is_Some (sessions !! id)))).
Proof.
  intros Hid. apply String.eqb_neq in Hid. unfold Api.unknown.
  cbn [bool_of]. now rewrite Hid.
Qed.

Lemma unknown_cases (v : Field) :
  Api.unknown v sessions = None
  \/ Api.unknown v sessions = Some true
  \/ Api.unknown v sessions = Some false
     /\ exists id, v = J_string id /\ is_Some (sessions !! id).
Proof.
  unfold Api.unknown.
  destruct v as [|b|z|id|a|o]; cbn [bool_of negb];
    try (destruct b); try (destruct z); try (destruct a); try (destruct o);
    auto.
  destruct (negb (negb (String.eqb id ""))); [auto|].
  destruct (decide (is_Some (sessions !! id))) as [Hin|Hout].
  - right. right. rewrite bool_decide_eq_true_2 by exact Hin. eauto.
  - right. left. now rewrite bool_decide_eq_false_2.
Qed.

(** A request with a string as message: the reply and the sessions, by
    whether the session it names is known. *)
Lemma chat_with_message (msg : string) (sid : option Field) (new : bool) :
  msg <> "" ->
  Api.unknown (Py.get sid J_null) sessions = Some new ->
  let id := if new then uuid4 env else Api.key (Py.get sid J_null) in
  Api.chat docs_data env sessions (Some (mkChatRequest (Some (J_string msg)) sid))
  = (Chat_200 id (fst (Composer.chat docs_data msg))
       (snd (Composer.chat docs_data msg)) (now_replied env),
     alter (add_exchange msg) id (if new then opened else sessions)).
Proof.
  intros Hmsg Hnew. cbv zeta. unfold Api.chat.
  cbn [message session_id Py.get bool_of].
  apply String.eqb_neq in Hmsg. rewrite Hmsg, Hnew. cbn [negb].
  unfold add_exchange, exchange, opened.
  destruct (Composer.chat docs_data msg) as [response sources].
  now destruct new.
Qed.

(** A request with a message that is true in a condition and no string:
    the session is opened or found, then [bot.chat] raises. *)
Lemma chat_without_text (v : Field) (sid : option Field) :
  no_text v ->
  Api.chat docs_data env sessions (Some (mkChatRequest (Some v) sid))
  = (Error_500,
     match Api.unknown (Py.get sid J_null) sessions with
     | Some true => opened
     | _ => sessions
     end).
Proof.
  intros [Hv Hs]. unfold Api.chat. cbn [message session_id Py.get].
  rewrite Hv. cbn [negb]. unfold opened.
  destruct (Api.unknown (Py.get sid J_null) sessions) as [[|]|];
    [| |reflexivity];
    (destruct v; try reflexivity; now destruct (Hs s)).
Qed.

End ApiFacts.

(** X17: the replies of the chat route other than 200. A 200 goes only to
    a request whose message is a string that is not empty. A 400 leaves the
    sessions as they are. A 500 leaves them as they are or with one session
    more, without messages, under the identifier uuid4 drew: a message that
    is true in a condition but no string (a number, true, a list, an object)
    passes the test for a message, the session is opened unless the request
    names a known one, and only then bot.chat raises. *)
Theorem chat_error_replies (docs_data : list Doc) (env : Outside)
    (sessions : gmap string Session) (json : option ChatRequest) :
  let result := Api.chat docs_data env sessions json in
  match fst result with
  | Chat_200 _ _ _ _ =>
      exists data msg,
        json = Some data /\ message data = Some (J_string msg) /\ msg <> ""
  | Error_400 =>
      (exists data,
         json = Some data
         /\ bool_of (Py.get (message data) (J_string "")) = false)
      /\ snd result = sessions
  | Error_500 => snd result = sessions \/ snd result = opened env sessions
  end
  /\ forall v : Field,
       no_text v ->
       Api.chat docs_data env sessions (Some (mkChatRequest (Some v) None))
       = (Error_500, opened env sessions).
Proof.
  cbv zeta. split.
  2:{ intros v Hv. now rewrite chat_without_text. }
  destruct json as [[msg sid]|]; [|now left].
  destruct (bool_of (Py.get msg (J_string ""))) eqn:Hb.
  2:{ unfold Api.chat. cbn [message]. rewrite Hb. cbn [negb fst snd].
      split; [|reflexivity]. eexists. split; [reflexivity|exact Hb]. }
  destruct msg as [v|]; [|discriminate Hb]. cbn [Py.get] in Hb.
  assert (Htext : (exists s, v = J_string s /\ s <> "") \/ no_text v).
  { destruct v as [|b|z|s|a|o];
      try (right; split; [exact Hb | discriminate]).
    left. exists s. split; [reflexivity|]. cbn [bool_of] in Hb.
    apply negb_true_iff, String.eqb_neq in Hb. exact Hb. }
  destruct Htext as [(s & -> & Hs)|Hv].
  - destruct (unknown_cases sessions (Py.get sid J_null))
      as [Hu|[Hu|[Hu _]]].
    + unfold Api.chat. cbn [message session_id Py.get] in *.
      rewrite Hb, Hu. now left.
    + rewrite (chat_with_message docs_data env sessions s sid true Hs Hu).
      cbn [fst]. eauto.
    + rewrite (chat_with_message docs_data env sessions s sid false Hs Hu).
      cbn [fst]. eauto.
  - rewrite (chat_without_text docs_data env sessions v sid Hv). cbn [fst snd].
    destruct (Api.unknown (Py.get sid J_null) sessions) as [[|]|]; auto.
Qed.

Definition day_one : Outside :=
  mkOutside "0f8fad5b-d9cb-469f-a165-70867728950e" "2024-01-01T10:00:00"
            "2024-01-01T10:00:01" "2024-01-01T10:00:02".

Definition open_session : gmap string Session :=
  {[ "abc" := mkSession "2023-12-31T09:00:00"
                [mkExchange "Hello" Composer.apology "2023-12-31T09:00:01"] ]}.

(** The message 5: the reply is 500 and a session without messages stays
    behind. *)
Lemma chat_error_replies_witness :
  Api.chat [install_page] day_one open_session
    (Some (mkChatRequest (Some (J_number true)) None))
  = (Error_500,
     <[uuid4 day_one := mkSession "2024-01-01T10:00:00" []]> open_session).
Proof.
  apply (proj2 (chat_error_replies [install_page] day_one open_session None)
           (J_number true)).
  split; [reflexivity | discriminate].
Defined.

(** X18: a request with a message and the identifier of a known session
    is answered under that identifier with the response and the sources of
    the bot; the exchange is appended to the messages of that session,
    whose creation time stays, and every other session is untouched. *)
Theorem chat_known_session (docs_data : list Doc) (env : Outside)
    (sessions : gmap string Session) (msg id : string) (s : Session) :
  msg <> "" -> id <> "" -> sessions !! id = Some s ->
  let response := fst (Composer.chat docs_data msg) in
  let result :=
    Api.chat docs_data env sessions
      (Some (mkChatRequest (Some (J_string msg)) (Some (J_string id)))) in
  fst result
  = Chat_200 id response (snd (Composer.chat docs_data msg)) (now_replied env)
  /\ snd result !! id
     = Some (mkSession (created_at s)
               (messages s ++ [mkExchange msg response (now_stored env)]))
  /\ forall k, k <> id -> snd result !! k = sessions !! k.
Proof.
  intros Hmsg Hid Hs. cbv zeta.
  rewrite (chat_with_message docs_data env sessions msg
             (Some (J_string id)) false Hmsg).
  2:{ cbn [Py.get]. rewrite (unknown_string sessions id Hid).
      rewrite bool_decide_eq_true_2 by (rewrite Hs; eauto). reflexivity. }
  cbn [fst snd Py.get Api.key]. split; [reflexivity|]. split.
  - now rewrite lookup_alter_eq, Hs.
  - intros k Hk. now rewrite lookup_alter_ne.
Qed.

Lemma chat_known_session_witness :
  let result :=
    Api.chat [install_page] day_one open_session
      (Some (mkChatRequest (Some (J_string "install"))
               (Some (J_string "abc")))) in
  fst result
  = Chat_200 "abc" (fst (Composer.chat [install_page] "install"))
      (snd (Composer.chat [install_page] "install")) "2024-01-01T10:00:02"
  /\ snd result !! "abc"
     = Some (mkSession "2023-12-31T09:00:00"
               [mkExchange "Hello" Composer.apology "2023-12-31T09:00:01";
                mkExchange "install"
                  (fst (Composer.chat [install_page] "install"))
                  "2024-01-01T10:00:01"])
  /\ forall k, k <> "abc" -> snd result !! k = open_session !! k.
Proof.
  apply (chat_known_session [install_page] day_one open_session "install"
           "abc"
           (mkSession "2023-12-31T09:00:00"
              [mkExchange "Hello" Composer.apology "2023-12-31T09:00:01"])).
  - discriminate.
  - discriminate.
  - apply lookup_singleton_eq.
Defined.

(** X19: a request with a message and no session identifier, an empty one
    or one that is not known is answered under the identifier uuid4 drew,
    never under the one it named; the session under the drawn identifier
    then holds this exchange alone, whatever it held before, and every
    other session is untouched. The same holds where the identifier is no
    string but null, a boolean or a number. *)
Theorem chat_new_session (docs_data : list Doc) (env : Outside)
    (sessions : gmap string Session) (msg : string) (sid : option Field) :
  msg <> "" ->
  (sid = None \/ sid = Some (J_string "")
   \/ (exists id, sid = Some (J_string id) /\ sessions !! id = None)
   \/ sid = Some J_null
   \/ (exists b, sid = Some (J_bool b))
   \/ (exists nonzero, sid = Some (J_number nonzero))) ->
  let response := fst (Composer.chat docs_data msg) in
  let result :=
    Api.chat docs_data env sessions
      (Some (mkChatRequest (Some (J_string msg)) sid)) in
  fst result
  = Chat_200 (uuid4 env) response (snd (Composer.chat docs_data msg))
      (now_replied env)
  /\ snd result !! uuid4 env
     = Some (mkSession (now_created env)
               [mkExchange msg response (now_stored env)])
  /\ forall k, k <> uuid4 env -> snd result !! k = sessions !! k.
Proof.
  intros Hmsg Hsid. cbv zeta.
  rewrite (chat_with_message docs_data env sessions msg sid true Hmsg).
  2:{ destruct Hsid as [->|[->|[(id & -> & Hnone)|[->|[[b ->]|[z ->]]]]]];
        try reflexivity; cbn [Py.get].
      - unfold Api.unknown.
        destruct (negb (bool_of (J_string id))); [reflexivity|].
        rewrite bool_decide_eq_false_2; [reflexivity|].
        rewrite Hnone. now intros [x Hx].
      - now destruct b.
      - now destruct z. }
  cbn [fst snd]. unfold opened. split; [reflexivity|]. split.
  - now rewrite alter_insert_eq, lookup_insert_eq.
  - intros k Hk. now rewrite lookup_alter_ne, lookup_insert_ne.
Qed.

Lemma chat_new_session_witness :
  let result :=
    Api.chat [install_page] day_one open_session
      (Some (mkChatRequest (Some (J_string "install"))
               (Some (J_string "xyz")))) in
  fst result
  = Chat_200 (uuid4 day_one) (fst (Composer.chat [install_page] "install"))
      (snd (Composer.chat [install_page] "install")) "2024-01-01T10:00:02"
  /\ snd result !! uuid4 day_one
     = Some (mkSession "2024-01-01T10:00:00"
               [mkExchange "install"
                  (fst (Composer.chat [install_page] "install"))
                  "2024-01-01T10:00:01"])
  /\ forall k, k <> uuid4 day_one -> snd result !! k = open_session !! k.
Proof.
  apply (chat_new_session [install_page] day_one open_session "install"
           (Some (J_string "xyz"))).
  - discriminate.
  - right. right. left. exists "xyz". split; [reflexivity|].
    apply lookup_singleton_ne. discriminate.
Defined.

(** X20: the chat route never removes a session, whatever the request. *)
Theorem chat_keeps_sessions (docs_data : list Doc) (env : Outside)
    (sessions : gmap string Session) (json : option ChatRequest)
    (k : string) :
  is_Some (sessions !! k) ->
  is_Some (snd (Api.chat docs_data env sessions json) !! k).
Proof.
  intros Hk.
  assert (Hopened : is_Some (opened env sessions !! k)).
  { unfold opened. rewrite lookup_insert_is_Some.
    destruct (decide (uuid4 env = k)); auto. }
  destruct json as [[msg sid]|]; [|exact Hk].
  destruct (bool_of (Py.get msg (J_string ""))) eqn:Hb.
  2:{ unfold Api.chat. cbn [message]. now rewrite Hb. }
  destruct msg as [v|]; [|discriminate Hb]. cbn [Py.get] in Hb.
  assert (Htext : (exists s, v = J_string s /\ s <> "") \/ no_text v).
  { destruct v as [|b|z|s|a|o];
      try (right; split; [exact Hb | discriminate]).
    left. exists s. split; [reflexivity|]. cbn [bool_of] in Hb.
    apply negb_true_iff, String.eqb_neq in Hb. exact Hb. }
  destruct Htext as [(s & -> & Hs)|Hv].
  - destruct (Api.unknown (Py.get sid J_null) sessions) as [new|] eqn:Hu.
    + rewrite (chat_with_message docs_data env sessions s sid new Hs Hu).
      cbn [snd]. apply lookup_alter_is_Some. now destruct new.
    + unfold Api.chat. cbn [message session_id Py.get] in *.
      now rewrite Hb, Hu.
  - rewrite (chat_without_text docs_data env sessions v sid Hv). cbn [snd].
    now destruct (Api.unknown (Py.get sid J_null) sessions) as [[|]|].
Qed.

Lemma chat_keeps_sessions_witness :
  is_Some (snd (Api.chat [install_page] day_one open_session
                  (Some (mkChatRequest (Some (J_string "install")) None)))
             !! "abc").
Proof.
  apply chat_keeps_sessions. unfold open_session.
  rewrite lookup_singleton_eq. eauto.
Defined.

(** ** More edge behaviour *)
Section EdgeFacts.

Variable base_url : string.
Variable urljoin : string -> string -> option string.
Variable netloc : string -> string.
Variable session_get : list string -> string -> Response.

(** Before the first request the crawl is where it started; after it the
    first request is the base URL. *)
Definition from_base (c : Crawl) : Prop :=
  (requested (scraper c) = [] /\ urls_to_visit c = [base_url]
   /\ pages_scraped c = 0 /\ base_url ∉ visited_urls (scraper c))
  \/ exists later, requested (scraper c) = base_url :: later.

Lemma loop_body_from_base (c : Crawl) :
  from_base c ->
  from_base
    (CapillaryDocScraper.loop_body base_url urljoin netloc session_get c).
Proof.
  intros Hc.
  destruct (loop_body_step base_url urljoin netloc session_get c)
    as [[_ ->]|[(u & r & Hq & Hvis & ->)|(u & r & Hq & Hnew & Hs & _ & _)]].
  - exact Hc.
  - destruct Hc as [(_ & Hb & _ & Hn)|Hc]; [|now right].
    rewrite Hq in Hb. injection Hb as -> _. contradiction.
  - right. unfold from_base. rewrite Hs.
    rewrite (proj1 (scrape_page_counts base_url urljoin netloc session_get
                      (scraper c) u Hnew)).
    destruct Hc as [(Hr & Hb & _)|[later Hr]]; rewrite Hr.
    + rewrite Hq in Hb. injection Hb as -> _. now exists [].
    + now exists (later ++ [u])%list.
Qed.

End EdgeFacts.

(** X21: when urljoin raises on an href of a fetched page, the try block
    of scrape_page ends like any failure, with no link returned; but by
    then the page is marked visited and its record, if it has content, is
    stored. *)
Theorem link_failure_keeps_page (base_url : string)
    (urljoin : string -> string -> option string) (netloc : string -> string)
    (session_get : list string -> string -> Response)
    (self : Scraper) (page_url : string) (soup : Soup) :
  page_url ∉ visited_urls self ->
  session_get (requested self) page_url = Parsed soup ->
  traverse (urljoin page_url) (find_all_a soup) = None ->
  let result :=
    CapillaryDocScraper.scrape_page base_url urljoin netloc session_get
      self page_url in
  let record := CapillaryDocScraper.extract_content soup page_url in
  fst result = ret_list []
  /\ page_url ∈ visited_urls (snd result)
  /\ scraped_data (snd result)
     = if String.eqb (Py.get (content record) "") ""
       then scraped_data self
       else (scraped_data self ++ [record])%list.
Proof.
  intros Hnew Hget Hraise. cbv zeta.
  destruct (scrape_page_links_raise base_url urljoin netloc session_get
              self page_url soup Hnew Hget Hraise) as [Hret Hvis].
  split; [exact Hret|]. split; [exact Hvis|].
  rewrite scrape_page_state, bool_decide_eq_false_2, Hget by exact Hnew.
  cbv zeta. simpl.
  now destruct (String.eqb _ "").
Qed.

(** An [urljoin] that raises on an href with an open bracket. *)
Definition strict_urljoin (current_url href : string) : option string :=
  if Py.contains "[" href then None else Some href.

(** The home page has a malformed link. *)
Definition malformed_link (history : list string) (page_url : string)
    : Response :=
  Site.page "Welcome to the documentation."
            ["https://docs.x.com/a"; "http://[broken"].

Lemma link_failure_keeps_page_witness :
  let result :=
    CapillaryDocScraper.scrape_page Site.base strict_urljoin Site.netloc
      malformed_link CapillaryDocScraper.init Site.base in
  fst result = ret_list []
  /\ Site.base ∈ visited_urls (snd result)
  /\ List.length (scraped_data (snd result)) = 1%nat.
Proof.
  destruct (link_failure_keeps_page Site.base strict_urljoin Site.netloc
              malformed_link CapillaryDocScraper.init Site.base
              (mkSoup (Some "Docs") None
                 (Some (mkTag "Welcome to the documentation." [] []))
                 None None ["https://docs.x.com/a"; "http://[broken"]))
    as (Hret & Hvis & Hdata).
  - apply (bool_decide_unpack _). vm_compute. exact I.
  - reflexivity.
  - vm_compute. reflexivity.
  - cbv zeta. split; [exact Hret|]. split; [exact Hvis|].
    rewrite Hdata. vm_compute. reflexivity.
Defined.

(** X22: a crawl by a fresh scraper with a positive page budget requests
    the base URL first. *)
Theorem crawl_starts_at_base (base_url : string)
    (urljoin : string -> string -> option string) (netloc : string -> string)
    (session_get : list string -> string -> Response)
    (fuel : nat) (max_pages : Z) (c : Crawl) :
  0 < max_pages ->
  CapillaryDocScraper.scrape_documentation base_url urljoin netloc
    session_get fuel CapillaryDocScraper.init max_pages = Some c ->
  exists later, requested (scraper c) = base_url :: later.
Proof.
  intros Hmax Hrun.
  pose proof (loop_exit _ _ _ _ _ _ _ _ Hrun) as Hexit.
  apply (loop_invariant base_url urljoin netloc session_get
           (from_base base_url)
           (loop_body_from_base base_url urljoin netloc session_get))
    in Hrun.
  - destruct Hrun as [(_ & Hq & Hp & _)|Hlater]; [|exact Hlater].
    unfold CapillaryDocScraper.loop_test in Hexit. rewrite Hq, Hp in Hexit.
    apply Z.ltb_ge in Hexit. lia.
  - left. simpl. repeat split. set_solver.
Qed.

Lemma crawl_starts_at_base_witness :
  exists c : Crawl,
    Site.crawl Site.endless 5 = Some c
    /\ exists later, requested (scraper c) = Site.base :: later.
Proof.
  eexists. split; [vm_compute; reflexivity|].
  apply (crawl_starts_at_base Site.base Site.urljoin Site.netloc
           Site.endless 100 5); [lia|].
  vm_compute. reflexivity.
Defined.

(** X23: generate_response reads the top record with defaults: without
    content, the key absent or the text empty, it answers that no content
    could be extracted, whatever the query and the other records; with
    content and without a title it cites the page as 'Documentation'. *)
Theorem response_missing_fields (query : string) (top_doc : Doc)
    (others : list Doc) :
  (Py.get (content top_doc) "" = "" ->
   Composer.generate_response query (top_doc :: others) = Composer.no_content)
  /\ (Py.get (content top_doc) "" <> "" -> title top_doc = None ->
      Composer.generate_response query (top_doc :: others)
      = (("Based on 'Documentation':" ++ NL ++ NL)
         ++ Chain.body query (Py.get (content top_doc) ""))
        ++ Composer.note).
Proof.
  split.
  - intros Hempty. unfold Composer.generate_response. now rewrite Hempty.
  - intros Hcontent Htitle. rewrite (response_shape _ _ _ Hcontent).
    unfold Chain.header. now rewrite Htitle.
Qed.

Lemma response_missing_fields_witness :
  Composer.generate_response "install"
    [mkDoc (Some "https://docs.x.com/a") (Some "A") None None None None]
  = Composer.no_content
  /\ Composer.generate_response "zebra"
       [mkDoc None None (content billing_page) None None None]
     = (("Based on 'Documentation':" ++ NL ++ NL)
        ++ Chain.body "zebra" (Py.get (content billing_page) ""))
       ++ Composer.note.
Proof.
  split.
  - apply (proj1 (response_missing_fields "install"
                    (mkDoc (Some "https://docs.x.com/a") (Some "A")
                       None None None None) [])).
    reflexivity.
  - apply (proj2 (response_missing_fields "zebra"
                    (mkDoc None None (content billing_page) None None None)
                    [])).
    + vm_compute. discriminate.
    + reflexivity.
Defined.
